(** * simple-temperature-endpoint: the in-memory temperature store

    A shallow embedding of [temperature_api.go] (package [temperature_api])
    and the properties of its two operations, [PostTemperature] (the
    specification's [Record]) and [GetTemperature] (its [Query]).

    Conventions of the embedding:
    - a [time.Time] is the instant it denotes, an integer count of
      nanoseconds; [Before] and [After] compare instants;
    - a [float64] is its IEEE-754 bit pattern; the store only moves
      temperatures around and never computes on them;
    - the Go map [map[string]DeviceData] is a [gmap string DeviceData];
    - a slice is the list of its elements; [nil] and the empty slice are
      both [[]];
    - a Go [error] made by [errors.New] is the message it carries;
    - the read-write mutex is left out: every call runs alone, which is
      what the lock guarantees. *)

From Stdlib Require Import ZArith String List Permutation Sorted Lia.
From stdpp Require Import base option list sorting gmap strings.

Local Open Scope string_scope.
Local Open Scope list_scope.
Local Open Scope Z_scope.

(** ** Data model *)

Definition Time := Z.

Definition Before (t u : Time) : bool := t <? u.
Definition After (t u : Time) : bool := u <? t.

Definition float64 := Z.

Definition MaxDataPoints : Z := 10000.

Record DataPoint := mkDataPoint {
  Timestamp : Time;
  Temperature : float64
}.

Record DeviceData := mkDeviceData {
  DeviceType : string;
  DataPoints : list DataPoint
}.

(** [ResponseBody] embeds a [DeviceData] and adds the device identifier. *)
Record ResponseBody := mkResponseBody {
  Embedded : DeviceData;
  DeviceID : string
}.

Record TemperatureApi := mkTemperatureApi {
  Data : gmap string DeviceData
}.

Record error := errors_New { Error : string }.

(** Zero values, which Go gives to [ResponseBody{}], to a missing map
    entry and to a slice element that does not exist. *)
Definition DataPoint_zero : DataPoint := mkDataPoint 0 0.
Definition DeviceData_zero : DeviceData := mkDeviceData "" [].
Definition ResponseBody_zero : ResponseBody := mkResponseBody DeviceData_zero "".

(** The three error kinds the specification names, and the kind of each
    message the code produces. *)
Inductive ErrorKind := InvalidInput | NotFound | InvalidRange.

Definition kind (e : error) : option ErrorKind :=
  if String.eqb (Error e) "device ID cannot be empty" then Some InvalidInput
  else if String.eqb (Error e) "device type cannot be empty" then Some InvalidInput
  else if String.eqb (Error e) "no data for this device ID" then Some NotFound
  else if String.eqb (Error e) "end time cannot be before start time" then Some InvalidRange
  else None.

(** ** The two functions of Go's [sort] package the code calls *)

(** A [less] function fit for sorting, as the documentation of
    [sort.Interface] asks: transitive, with a transitive complement. *)
Record StrictWeak {A : Type} (less : A -> A -> bool) : Prop := {
  less_irrefl : forall a, less a a = false;
  less_trans : forall a b c, less a b = true -> less b c = true -> less a c = true;
  nless_trans : forall a b c, less a b = false -> less b c = false -> less a c = false
}.

(** [sorted_by less l]: no element of [l] is [less] than an earlier one. *)
Definition sorted_by {A : Type} (less : A -> A -> bool) (l : list A) : Prop :=
  StronglySorted (fun a b => less b a = false) l.

(** [sort.Slice] is not stable and its algorithm is not part of the
    repository; the code relies on its contract only: the slice is
    permuted, and with a proper [less] it ends up sorted. *)
Class SliceSorter := {
  sort_Slice : forall {A : Type}, (A -> A -> bool) -> list A -> list A;
  sort_Slice_perm : forall (A : Type) (less : A -> A -> bool) (l : list A),
    Permutation l (sort_Slice less l);
  sort_Slice_sorted : forall (A : Type) (less : A -> A -> bool) (l : list A),
    StrictWeak less -> sorted_by less (sort_Slice less l)
}.

(** The insertion sort Go uses on short slices: each element moves back
    past every neighbour it is [less] than.  The part already sorted is
    kept reversed, its last element first. *)
Fixpoint insert_back {A : Type} (less : A -> A -> bool) (x : A) (rprefix : list A) : list A :=
  match rprefix with
  | [] => [x]
  | y :: r => if less x y then y :: insert_back less x r else x :: y :: r
  end.

Definition insertionSort {A : Type} (less : A -> A -> bool) (l : list A) : list A :=
  rev (fold_left (fun acc x => insert_back less x acc) l []).

(** [sort.Search(n, f)]: binary search for the least index in [0, n) at
    which [f] holds, [n] when there is none.  [fuel] bounds the number of
    iterations of the loop; [n] iterations are always enough.  Indices
    are at most the length of a slice, so [int(uint(i+j) >> 1)] is the
    exact half of [i + j]. *)
Fixpoint Search_loop (fuel : nat) (f : nat -> bool) (i j : nat) : nat :=
  match fuel with
  | O => i
  | S fuel' =>
      if (i <? j)%nat then
        let h := ((i + j) / 2)%nat in
        if negb (f h) then Search_loop fuel' f (h + 1)%nat j
        else Search_loop fuel' f i h
      else i
  end.

Definition Search (n : nat) (f : nat -> bool) : nat := Search_loop n f 0%nat n.

(** [s[i]] for an index the code knows to be in range. *)
Definition index (s : list DataPoint) (i : nat) : DataPoint := nth i s DataPoint_zero.

(** [s[lo:hi]]; Go panics unless [lo <= hi <= cap(s)], and here [hi] never
    exceeds the length. [None] is the panic. *)
Definition slice {A : Type} (s : list A) (lo hi : nat) : option (list A) :=
  if ((lo <=? hi) && (hi <=? length s))%nat then Some (take (hi - lo) (drop lo s)) else None.

(** ** The store *)

Definition Init (server : TemperatureApi) : TemperatureApi :=
  mkTemperatureApi ∅.

(** The [less] function that [PostTemperature] hands to [sort.Slice]. *)
Definition before_ts (a b : DataPoint) : bool := Before (Timestamp a) (Timestamp b).

(** Samples sorted non-decreasing by timestamp. *)
Definition sorted_samples (s : list DataPoint) : Prop :=
  StronglySorted (fun a b => Timestamp a <= Timestamp b) s.

Section Store.
Context `{SliceSorter}.

(** [PostTemperature] returns the store it leaves behind and the error,
    [None] for Go's [nil]. *)
Definition PostTemperature (server : TemperatureApi) (sensorID deviceType : string)
    (sampleTime : Time) (temperature : float64) : TemperatureApi * option error :=
  if String.eqb sensorID "" then
    (server, Some (errors_New "device ID cannot be empty"))
  else if String.eqb deviceType "" then
    (server, Some (errors_New "device type cannot be empty"))
  else
    let deviceData := default DeviceData_zero (Data server !! sensorID) in
    let points := DataPoints deviceData ++ [mkDataPoint sampleTime temperature] in
    let points := sort_Slice before_ts points in
    let deviceData := mkDeviceData deviceType points in
    (mkTemperatureApi (<[sensorID := deviceData]> (Data server)), None).

End Store.

(** [GetTemperature] leaves the store alone. Its result is [None] when
    the slice expression panics, else the response and the error. *)
Definition GetTemperature (server : TemperatureApi) (deviceID : string)
    (startTime endTime : Time) : option (ResponseBody * option error) :=
  if String.eqb deviceID "" then
    Some (ResponseBody_zero, Some (errors_New "device ID cannot be empty"))
  else
    match Data server !! deviceID with
    | None => Some (ResponseBody_zero, Some (errors_New "no data for this device ID"))
    | Some data =>
        if Before endTime startTime then
          Some (ResponseBody_zero, Some (errors_New "end time cannot be before start time"))
        else if (length (DataPoints data) =? 0)%nat then
          Some (mkResponseBody (mkDeviceData (DeviceType data) []) deviceID, None)
        else
          let left := Timestamp (index (DataPoints data) 0) in
          let right := Timestamp (index (DataPoints data) (length (DataPoints data) - 1)) in
          if After startTime right || Before endTime left then
            Some (ResponseBody_zero, None)
          else
            let startIndex := Search (length (DataPoints data))
              (fun i => negb (Before (Timestamp (index (DataPoints data) i)) startTime)) in
            let endIndex := Search (length (DataPoints data))
              (fun i => After (Timestamp (index (DataPoints data) i)) endTime) in
            match slice (DataPoints data) startIndex endIndex with
            | None => None
            | Some points =>
                Some (mkResponseBody (mkDeviceData (DeviceType data) points) deviceID, None)
            end
    end.

(** ** Histories of calls *)

(** One call on the store and what it returned. *)
Inductive Event :=
| Posted (sensorID deviceType : string) (sampleTime : Time) (temperature : float64)
    (err : option error)
| Got (deviceID : string) (startTime endTime : Time)
    (res : option (ResponseBody * option error)).

(** [Trace s0 s h]: starting in [s0], the calls of [h] (the most recent
    first) with the results recorded there leave the store [s]. *)
Inductive Trace `{SliceSorter} (s0 : TemperatureApi) : TemperatureApi -> list Event -> Prop :=
| Trace_nil : Trace s0 s0 []
| Trace_Post s h id ty t v :
    Trace s0 s h ->
    Trace s0 (fst (PostTemperature s id ty t v))
      (Posted id ty t v (snd (PostTemperature s id ty t v)) :: h)
| Trace_Get s h id a b :
    Trace s0 s h ->
    Trace s0 s (Got id a b (GetTemperature s id a b) :: h).

(** The samples recorded for [d], oldest first: those of the
    [PostTemperature] calls for [d] that returned [nil]. *)
Fixpoint samples_of (d : string) (h : list Event) : list DataPoint :=
  match h with
  | [] => []
  | Posted id _ t v None :: h' =>
      if String.eqb id d then samples_of d h' ++ [mkDataPoint t v] else samples_of d h'
  | _ :: h' => samples_of d h'
  end.

(** The device type of the most recent [PostTemperature] call for [d]
    that returned [nil]. *)
Fixpoint last_type (d : string) (h : list Event) : option string :=
  match h with
  | [] => None
  | Posted id ty _ _ None :: h' =>
      if String.eqb id d then Some ty else last_type d h'
  | _ :: h' => last_type d h'
  end.

(** Some [PostTemperature] call for [d] returned [nil]. *)
Definition recorded (d : string) (h : list Event) : Prop :=
  exists ty t v, In (Posted d ty t v None) h.

(** The samples of the inclusive range [startTime, endTime]. *)
Definition in_range (startTime endTime : Time) (p : DataPoint) : bool :=
  (startTime <=? Timestamp p) && (Timestamp p <=? endTime).

(** The samples the store holds for [d]; none when [d] is not a key,
    as the zero value Go reads from the map has none. *)
Definition stored (server : TemperatureApi) (d : string) : list DataPoint :=
  DataPoints (default DeviceData_zero (Data server !! d)).

(** The entry of [d] after a history that starts with [Init]. *)
Definition entry_agrees (d : string) (entry : option DeviceData) (h : list Event) : Prop :=
  match entry with
  | None => samples_of d h = []
  | Some data =>
      d <> "" /\ last_type d h = Some (DeviceType data) /\
      Permutation (DataPoints data) (samples_of d h) /\
      samples_of d h <> []
  end.

(** ** Stores and histories used as examples *)

Definition store_empty : TemperatureApi := Init (mkTemperatureApi ∅).

Definition store_d1 : TemperatureApi :=
  mkTemperatureApi {[ "d1" := mkDeviceData "sensor"
    [mkDataPoint 0 200; mkDataPoint 10 201; mkDataPoint 20 202] ]}.

(** A device that already holds [MaxDataPoints] samples. *)
Definition store_full : TemperatureApi :=
  mkTemperatureApi {[ "d1" := mkDeviceData "sensor"
    (replicate (Z.to_nat MaxDataPoints) (mkDataPoint 0 0)) ]}.

(** A small history: three samples for ["d1"], recorded out of order, a
    rejected call and a sample for another device. *)
Definition call_log : list (string * string * Time * float64) :=
  [("d1", "sensor", 20, 202); ("d1", "", 5, 0); ("d1", "sensor", 0, 200);
   ("d2", "probe", 7, 70); ("d1", "thermo", 10, 201)].

Fixpoint replay `{SliceSorter} (s : TemperatureApi)
    (calls : list (string * string * Time * float64))
    (h : list Event) : TemperatureApi * list Event :=
  match calls with
  | [] => (s, h)
  | (id, ty, t, v) :: calls' =>
      replay (fst (PostTemperature s id ty t v)) calls'
        (Posted id ty t v (snd (PostTemperature s id ty t v)) :: h)
  end.

Definition store_log `{SliceSorter} : TemperatureApi :=
  fst (replay store_empty call_log []).
Definition history_log `{SliceSorter} : list Event :=
  snd (replay store_empty call_log []).

(** Samples with strictly increasing timestamps: sorted, and no two at
    the same instant. *)
Definition strictly_increasing (s : list DataPoint) : Prop :=
  StronglySorted (fun a b => Timestamp a < Timestamp b) s.

(** A store whose samples are out of order, which no call of
    [PostTemperature] leaves behind. *)
Definition store_unsorted : TemperatureApi :=
  mkTemperatureApi {[ "d1" := mkDeviceData "sensor"
    [mkDataPoint 8 80; mkDataPoint 1 10; mkDataPoint 9 90; mkDataPoint 3 30] ]}.

(** The calls of [call_log] for ["d1"] in another order, and with one
    device type throughout. *)
Definition call_log_shuffled : list (string * string * Time * float64) :=
  [("d1", "sensor", 0, 200); ("d1", "sensor", 10, 201); ("d1", "sensor", 20, 202)].

Definition store_shuffled `{SliceSorter} : TemperatureApi :=
  fst (replay store_empty call_log_shuffled []).
Definition history_shuffled `{SliceSorter} : list Event :=
  snd (replay store_empty call_log_shuffled []).

(** ** The insertion sort meets the contract of [sort.Slice] *)

Section InsertionSort.
Context {A : Type} (less : A -> A -> bool).

Lemma insert_back_perm x r : Permutation (x :: r) (insert_back less x r).
Proof.
  induction r as [|y r IH]; simpl; [reflexivity|].
  destruct (less x y); [|reflexivity].
  rewrite perm_swap. now apply perm_skip.
Qed.

Lemma fold_insert_back_perm l acc :
  Permutation (acc ++ l) (fold_left (fun acc x => insert_back less x acc) l acc).
Proof.
  revert acc. induction l as [|x l IH]; intros acc; simpl.
  - now rewrite app_nil_r.
  - rewrite <- IH, <- insert_back_perm. symmetry. apply Permutation_middle.
Qed.

Lemma insertionSort_perm l : Permutation l (insertionSort less l).
Proof.
  unfold insertionSort. rewrite <- Permutation_rev.
  exact (fold_insert_back_perm l []).
Qed.

Hypothesis Hless : StrictWeak less.

Lemma less_asym a b : less a b = true -> less b a = false.
Proof.
  intros Hab. destruct (less b a) eqn:Hba; [|reflexivity].
  pose proof (less_trans less Hless _ _ _ Hab Hba) as Haa.
  now rewrite (less_irrefl less Hless) in Haa.
Qed.

Lemma insert_back_sorted x r :
  StronglySorted (fun a b => less a b = false) r ->
  StronglySorted (fun a b => less a b = false) (insert_back less x r).
Proof.
  induction r as [|y r IH]; simpl; intros Hs.
  - repeat constructor.
  - apply StronglySorted_inv in Hs as [Hr Hy].
    destruct (less x y) eqn:Hxy.
    + constructor; [now apply IH|].
      rewrite <- insert_back_perm. constructor; [now apply less_asym|exact Hy].
    + constructor; [now constructor|].
      constructor; [exact Hxy|].
      eapply Forall_impl; [exact Hy|]. simpl. intros b Hyb.
      exact (nless_trans less Hless _ _ _ Hxy Hyb).
Qed.

Lemma insertionSort_sorted l : sorted_by less (insertionSort less l).
Proof.
  unfold insertionSort, sorted_by.
  assert (Hacc : StronglySorted (fun a b => less a b = false)
                   (fold_left (fun acc x => insert_back less x acc) l [])).
  { generalize (SSorted_nil (fun a b : A => less a b = false)).
    generalize (@nil A) as acc. induction l as [|x l IH]; intros acc Hs; simpl;
      [exact Hs|]. apply IH. now apply insert_back_sorted. }
  revert Hacc. generalize (fold_left (fun acc x => insert_back less x acc) l []).
  intros r. induction r as [|y r IH]; simpl; intros Hs; [constructor|].
  apply StronglySorted_inv in Hs as [Hr Hy].
  apply StronglySorted_app_2.
  - intros a b Ha Hb. apply list_elem_of_singleton in Hb as ->.
    rewrite Forall_forall in Hy. apply Hy.
    apply list_elem_of_In. apply list_elem_of_In in Ha. now apply in_rev.
  - now apply IH.
  - repeat constructor.
Qed.

End InsertionSort.

#[export] Instance insertion_SliceSorter : SliceSorter := {|
  sort_Slice := @insertionSort;
  sort_Slice_perm := @insertionSort_perm;
  sort_Slice_sorted := fun A less l Hless => @insertionSort_sorted A less Hless l
|}.

(** ** Binary search *)

Section SearchFacts.
Local Open Scope nat_scope.

Lemma half_between i j : i < j -> i <= (i + j) / 2 < j.
Proof.
  intros Hij. split.
  - apply Nat.div_le_lower_bound; lia.
  - apply Nat.Div0.div_lt_upper_bound; lia.
Qed.

Lemma Search_loop_S fuel f i j :
  Search_loop (S fuel) f i j =
  if i <? j then
    if negb (f ((i + j) / 2)) then Search_loop fuel f ((i + j) / 2 + 1) j
    else Search_loop fuel f i ((i + j) / 2)
  else i.
Proof. reflexivity. Qed.

(** One iteration, with the midpoint named. *)
Ltac search_step i j Hlt h Hh :=
  rewrite Search_loop_S;
  destruct (Nat.ltb_spec i j) as [Hlt|?];
  [pose proof (half_between i j Hlt) as Hh; revert Hh;
   generalize ((i + j) / 2); intros h Hh|].

(** The loop stays inside the interval it is given. *)
Lemma Search_loop_bounds fuel f i j :
  i <= j -> i <= Search_loop fuel f i j <= j.
Proof.
  revert i j. induction fuel as [|fuel IH]; intros i j Hij; [simpl; lia|].
  search_step i j Hlt h Hh; [|lia].
  destruct (f h); cbn [negb].
  - specialize (IH i h). lia.
  - specialize (IH (h + 1) j). lia.
Qed.

(** It reads [f] inside [0, n) only. *)
Lemma Search_loop_ext fuel f g n i j :
  j <= n -> (forall h, h < n -> f h = g h) ->
  Search_loop fuel f i j = Search_loop fuel g i j.
Proof.
  revert i j. induction fuel as [|fuel IH]; intros i j Hj Hfg; [reflexivity|].
  rewrite (Search_loop_S fuel g).
  search_step i j Hlt h Hh; [|reflexivity].
  rewrite <- (Hfg h) by lia.
  destruct (f h); cbn [negb]; apply IH; auto; lia.
Qed.

(** A weaker predicate is found no later, whatever the data. *)
Lemma Search_loop_le fuel f g i j :
  i <= j -> (forall h, g h = true -> f h = true) ->
  Search_loop fuel f i j <= Search_loop fuel g i j.
Proof.
  revert i j. induction fuel as [|fuel IH]; intros i j Hij Hgf; [simpl; lia|].
  rewrite (Search_loop_S fuel g).
  search_step i j Hlt h Hh; [|lia].
  destruct (g h) eqn:Hg; cbn [negb].
  - rewrite (Hgf _ Hg). cbn [negb]. apply IH; [lia|exact Hgf].
  - destruct (f h); cbn [negb].
    + pose proof (Search_loop_bounds fuel f i h).
      pose proof (Search_loop_bounds fuel g (h + 1) j). lia.
    + apply IH; [lia|exact Hgf].
Qed.

(** With enough fuel and a predicate that, once true, stays true, the
    loop ends on the boundary between the two. *)
Lemma Search_loop_spec fuel f n i j :
  i <= j <= n -> j - i <= fuel ->
  (forall a b, a <= b < n -> f a = true -> f b = true) ->
  (forall a, a < i -> f a = false) ->
  (forall a, j <= a < n -> f a = true) ->
  (forall a, a < Search_loop fuel f i j -> f a = false) /\
  (forall a, Search_loop fuel f i j <= a < n -> f a = true).
Proof.
  revert i j. induction fuel as [|fuel IH]; intros i j Hij Hfuel Hmono Hlo Hhi.
  - simpl. split; [exact Hlo|]. intros a Ha. apply Hhi. lia.
  - search_step i j Hlt h Hh.
    2:{ split; [exact Hlo|]. intros a Ha. apply Hhi. lia. }
    destruct (f h) eqn:Hf; cbn [negb].
    + apply IH; auto; [lia|lia|].
      intros a Ha. apply (Hmono h); [lia|exact Hf].
    + apply IH; auto; [lia|lia|].
      intros a Ha. destruct (f a) eqn:Hfa; [|reflexivity].
      rewrite (Hmono a h) in Hf; [discriminate|lia|exact Hfa].
Qed.

Lemma Search_bounds n f : Search n f <= n.
Proof. unfold Search. pose proof (Search_loop_bounds n f 0 n). lia. Qed.

Lemma Search_spec n f :
  (forall a b, a <= b < n -> f a = true -> f b = true) ->
  (forall a, a < Search n f -> f a = false) /\
  (forall a, Search n f <= a < n -> f a = true).
Proof.
  intros Hmono. unfold Search. apply Search_loop_spec; auto; try lia.
Qed.

Lemma Search_le n f g :
  (forall h, g h = true -> f h = true) -> Search n f <= Search n g.
Proof. intros Hgf. unfold Search. apply Search_loop_le; [lia|exact Hgf]. Qed.

End SearchFacts.

(** ** Sorted slices and the two searches of [GetTemperature] *)

Lemma before_ts_StrictWeak : StrictWeak before_ts.
Proof.
  split; unfold before_ts, Before; intros; lia.
Qed.

Lemma index_lookup (s : list DataPoint) (i : nat) (p : DataPoint) :
  s !! i = Some p -> index s i = p.
Proof. intros Hp. unfold index. now rewrite nth_lookup, Hp. Qed.

Lemma sorted_by_lookup (s : list DataPoint) (a b : nat) (p q : DataPoint) :
  sorted_by before_ts s -> (a <= b)%nat -> s !! a = Some p -> s !! b = Some q ->
  Timestamp p <= Timestamp q.
Proof.
  intros Hs. revert a b. induction Hs as [|x s Hs IH Hx]; intros a b Hab Ha Hb.
  - discriminate.
  - destruct a as [|a], b as [|b]; simpl in *; try lia.
    + injection Ha as <-. injection Hb as <-. lia.
    + injection Ha as <-. rewrite Forall_forall in Hx.
      assert (Hq : before_ts q x = false).
      { apply Hx. eapply list_elem_of_lookup_2. exact Hb. }
      unfold before_ts, Before in Hq. lia.
    + apply (IH a b); auto. lia.
Qed.

Lemma sorted_samples_by (s : list DataPoint) :
  sorted_samples s <-> sorted_by before_ts s.
Proof.
  unfold sorted_samples, sorted_by.
  split; intros Hs; induction Hs as [|x s Hs IH Hx]; constructor; auto;
    (eapply Forall_impl; [exact Hx|]); simpl; intros y;
    unfold before_ts, Before; lia.
Qed.

Section Filters.
Context {A : Type} (g : A -> bool).

Lemma filter_is_drop (l : list A) (k : nat) :
  (forall a x, l !! a = Some x -> g x = (k <=? a)%nat) ->
  List.filter g l = drop k l.
Proof.
  revert k. induction l as [|y l IH]; intros k Hg; [now destruct k|].
  simpl. rewrite (Hg 0%nat y eq_refl). destruct k as [|k]; simpl.
  - f_equal. rewrite (IH 0%nat); [reflexivity|].
    intros a x Hx. now rewrite (Hg (S a) x Hx).
  - apply IH. intros a x Hx. now rewrite (Hg (S a) x Hx).
Qed.

Lemma filter_is_take (l : list A) (k : nat) :
  (forall a x, l !! a = Some x -> g x = (a <? k)%nat) ->
  List.filter g l = take k l.
Proof.
  revert k. induction l as [|y l IH]; intros k Hg; [now destruct k|].
  simpl. rewrite (Hg 0%nat y eq_refl). destruct k as [|k]; simpl.
  - rewrite (IH 0%nat); [now destruct l|].
    intros a x Hx. now rewrite (Hg (S a) x Hx).
  - f_equal. apply IH. intros a x Hx. now rewrite (Hg (S a) x Hx).
Qed.

Lemma filter_andb (g' : A -> bool) (l : list A) :
  List.filter (fun x => g x && g' x) l = List.filter g (List.filter g' l).
Proof.
  induction l as [|y l IH]; simpl; [reflexivity|].
  destruct (g y) eqn:Hy, (g' y); simpl; rewrite ?Hy, IH; reflexivity.
Qed.

End Filters.

Section RangeOfSorted.
Variable s : list DataPoint.
Variables startTime endTime : Time.
Hypothesis Hsorted : sorted_by before_ts s.

Let from_start (i : nat) : bool := negb (Before (Timestamp (index s i)) startTime).
Let past_end (i : nat) : bool := After (Timestamp (index s i)) endTime.

Lemma index_mono (a b : nat) :
  (a <= b < length s)%nat -> Timestamp (index s a) <= Timestamp (index s b).
Proof.
  intros Hab.
  destruct (lookup_lt_is_Some_2 s a) as [p Hp]; [lia|].
  destruct (lookup_lt_is_Some_2 s b) as [q Hq]; [lia|].
  rewrite (index_lookup _ _ _ Hp), (index_lookup _ _ _ Hq).
  apply (sorted_by_lookup s a b); auto. lia.
Qed.

Lemma from_start_mono (a b : nat) :
  (a <= b < length s)%nat -> from_start a = true -> from_start b = true.
Proof.
  intros Hab. pose proof (index_mono a b Hab). unfold from_start, Before. lia.
Qed.

Lemma past_end_mono (a b : nat) :
  (a <= b < length s)%nat -> past_end a = true -> past_end b = true.
Proof.
  intros Hab. pose proof (index_mono a b Hab). unfold past_end, After. lia.
Qed.

(** On a sorted slice the two searches cut out exactly the samples of
    the range, and the slice expression does not panic. *)
Lemma slice_of_searches :
  startTime <= endTime ->
  slice s (Search (length s) from_start) (Search (length s) past_end)
  = Some (List.filter (in_range startTime endTime) s).
Proof.
  intros Hrange.
  destruct (Search_spec (length s) from_start from_start_mono) as [Hi0 Hi1].
  destruct (Search_spec (length s) past_end past_end_mono) as [Hj0 Hj1].
  pose proof (Search_bounds (length s) from_start) as Hin.
  pose proof (Search_bounds (length s) past_end) as Hjn.
  set (i := Search (length s) from_start) in *.
  set (j := Search (length s) past_end) in *.
  assert (Hij : (i <= j)%nat).
  { apply Search_le. intros h. unfold from_start, past_end, After, Before. lia. }
  unfold slice.
  destruct (Nat.leb_spec i j); [|lia]. destruct (Nat.leb_spec j (length s)); [|lia].
  simpl. f_equal.
  rewrite take_drop_commute. replace (i + (j - i))%nat with j by lia.
  unfold in_range. rewrite filter_andb.
  rewrite (filter_is_take _ s j).
  - symmetry. apply filter_is_drop. intros a x Hx.
    apply lookup_take_Some in Hx as [Hx Haj].
    pose proof (lookup_lt_Some _ _ _ Hx) as Han.
    destruct (Nat.leb_spec i a) as [Hia|Hai].
    + specialize (Hi1 a ltac:(lia)). unfold from_start, Before in Hi1.
      rewrite (index_lookup _ _ _ Hx) in Hi1. lia.
    + specialize (Hi0 a Hai). unfold from_start, Before in Hi0.
      rewrite (index_lookup _ _ _ Hx) in Hi0. lia.
  - intros a x Hx. pose proof (lookup_lt_Some _ _ _ Hx) as Han.
    destruct (Nat.ltb_spec a j) as [Haj|Hja].
    + specialize (Hj0 a Haj). unfold past_end, After in Hj0.
      rewrite (index_lookup _ _ _ Hx) in Hj0. lia.
    + specialize (Hj1 a ltac:(lia)). unfold past_end, After in Hj1.
      rewrite (index_lookup _ _ _ Hx) in Hj1. lia.
Qed.

End RangeOfSorted.

(** ** [GetTemperature] *)

(** What is left of [GetTemperature] once the three input checks are
    passed and the device has samples. *)
Lemma GetTemperature_found server d data startTime endTime first lst :
  d <> "" ->
  Data server !! d = Some data ->
  head (DataPoints data) = Some first ->
  last (DataPoints data) = Some lst ->
  startTime <= endTime ->
  GetTemperature server d startTime endTime =
  if (Timestamp lst <? startTime) || (endTime <? Timestamp first)
  then Some (ResponseBody_zero, None)
  else
    match slice (DataPoints data)
            (Search (length (DataPoints data))
               (fun i => negb (Before (Timestamp (index (DataPoints data) i)) startTime)))
            (Search (length (DataPoints data))
               (fun i => After (Timestamp (index (DataPoints data) i)) endTime)) with
    | None => None
    | Some points =>
        Some (mkResponseBody (mkDeviceData (DeviceType data) points) d, None)
    end.
Proof.
  intros Hd Hdata Hfirst Hlast Hrange. unfold GetTemperature.
  apply String.eqb_neq in Hd. rewrite Hd, Hdata.
  unfold Before at 1. destruct (Z.ltb_spec endTime startTime); [lia|].
  rewrite head_lookup in Hfirst. rewrite last_lookup in Hlast.
  destruct (Nat.eqb_spec (length (DataPoints data)) 0) as [Hlen|Hlen].
  { apply length_zero_iff_nil in Hlen. rewrite Hlen in Hfirst. discriminate. }
  cbv zeta. rewrite (index_lookup _ _ _ Hfirst).
  replace (length (DataPoints data) - 1)%nat with (pred (length (DataPoints data))) by lia.
  rewrite (index_lookup _ _ _ Hlast). reflexivity.
Qed.

(** The slice expression cannot panic: the second search never ends
    before the first, sorted data or not. *)
Lemma GetTemperature_slice_defined (s : list DataPoint) (startTime endTime : Time) :
  startTime <= endTime ->
  is_Some (slice s
    (Search (length s) (fun i => negb (Before (Timestamp (index s i)) startTime)))
    (Search (length s) (fun i => After (Timestamp (index s i)) endTime))).
Proof.
  intros Hrange. unfold slice.
  pose proof (Search_bounds (length s)
    (fun i => After (Timestamp (index s i)) endTime)) as Hhi.
  match goal with |- context [(?lo <=? ?hi)%nat && _] =>
    assert (Hle : (lo <= hi)%nat) by
      (apply Search_le; intros h; unfold After, Before; lia);
    destruct (Nat.leb_spec lo hi); [|lia]
  end.
  match goal with |- context [(?hi <=? ?n)%nat] => destruct (Nat.leb_spec hi n); [|lia] end.
  simpl. eauto.
Qed.

Lemma GetTemperature_no_panic server d startTime endTime :
  is_Some (GetTemperature server d startTime endTime).
Proof.
  unfold GetTemperature.
  destruct (String.eqb d ""); [eauto|].
  destruct (Data server !! d) as [data|]; [|eauto].
  unfold Before at 1. destruct (Z.ltb_spec endTime startTime); [eauto|].
  destruct (length (DataPoints data) =? 0)%nat; [eauto|]. cbv zeta.
  match goal with |- context [if ?c then _ else _] => destruct c; [eauto|] end.
  destruct (GetTemperature_slice_defined (DataPoints data) startTime endTime) as [pts Hpts];
    [assumption|].
  rewrite Hpts. eauto.
Qed.

(** The answer on sorted samples when the range meets them. *)
Lemma GetTemperature_sorted server d data startTime endTime first lst :
  d <> "" ->
  Data server !! d = Some data ->
  sorted_by before_ts (DataPoints data) ->
  head (DataPoints data) = Some first ->
  last (DataPoints data) = Some lst ->
  startTime <= endTime ->
  startTime <= Timestamp lst ->
  Timestamp first <= endTime ->
  GetTemperature server d startTime endTime =
    Some (mkResponseBody
            (mkDeviceData (DeviceType data)
               (List.filter (in_range startTime endTime) (DataPoints data))) d, None).
Proof.
  intros Hd Hdata Hsorted Hfirst Hlast Hrange Hlo Hhi.
  rewrite (GetTemperature_found server d data startTime endTime first lst); auto.
  destruct (Z.ltb_spec (Timestamp lst) startTime); [lia|].
  destruct (Z.ltb_spec endTime (Timestamp first)); [lia|].
  simpl. now rewrite (slice_of_searches (DataPoints data) startTime endTime Hsorted Hrange).
Qed.

(** The range query on a non-empty device identifier that the store
    holds with sorted samples: the general answer, its shape as a slice
    [i:j], and the answer for the instant of exactly one sample. *)
Lemma GetTemperature_range_of_sorted server d data :
  d <> "" ->
  Data server !! d = Some data ->
  sorted_samples (DataPoints data) ->
  (forall startTime endTime first lst,
     head (DataPoints data) = Some first ->
     last (DataPoints data) = Some lst ->
     startTime <= endTime ->
     startTime <= Timestamp lst ->
     Timestamp first <= endTime ->
     GetTemperature server d startTime endTime =
       Some (mkResponseBody
               (mkDeviceData (DeviceType data)
                  (List.filter (in_range startTime endTime) (DataPoints data))) d, None)
     /\ exists i j, (i <= j <= length (DataPoints data))%nat /\
          List.filter (in_range startTime endTime) (DataPoints data)
          = take (j - i) (drop i (DataPoints data)))
  /\ (forall t p,
        List.filter (fun q => Timestamp q =? t) (DataPoints data) = [p] ->
        GetTemperature server d t t =
          Some (mkResponseBody (mkDeviceData (DeviceType data) [p]) d, None)).
Proof.
  intros Hd Hdata Hsorted. apply sorted_samples_by in Hsorted. split.
  - intros startTime endTime first lst Hfirst Hlast Hrange Hlo Hhi.
    split; [now apply (GetTemperature_sorted server d data startTime endTime first lst)|].
    pose proof (slice_of_searches (DataPoints data) startTime endTime Hsorted Hrange)
      as Hslice.
    unfold slice in Hslice.
    match type of Hslice with context [(?lo <=? ?hi)%nat && (?hi <=? ?n)%nat] =>
      exists lo, hi; destruct (Nat.leb_spec lo hi); [|discriminate];
      destruct (Nat.leb_spec hi n); [|discriminate]
    end.
    simpl in Hslice. injection Hslice as Hslice. split; [lia|]. now rewrite Hslice.
  - intros t p Hp.
    assert (Hin : In p (DataPoints data) /\ Timestamp p = t).
    { assert (Hpf : In p (List.filter (fun q => Timestamp q =? t) (DataPoints data)))
        by (rewrite Hp; now left).
      apply filter_In in Hpf as [Hpl Hpt]. split; [exact Hpl|lia]. }
    destruct Hin as [Hpl Hpt].
    assert (Hne : DataPoints data <> []) by (intros Heq; now rewrite Heq in Hpl).
    destruct (proj2 (head_is_Some (DataPoints data)) Hne) as [first Hfirst].
    destruct (proj2 (last_is_Some (DataPoints data)) Hne) as [lst Hlast].
    apply list_elem_of_In, list_elem_of_lookup in Hpl as [a Ha].
    pose proof (lookup_lt_Some _ _ _ Ha) as Hlt.
    assert (Hlo : Timestamp first <= Timestamp p).
    { rewrite head_lookup in Hfirst.
      apply (sorted_by_lookup (DataPoints data) 0 a); auto. lia. }
    assert (Hhi : Timestamp p <= Timestamp lst).
    { rewrite last_lookup in Hlast.
      apply (sorted_by_lookup (DataPoints data) a (pred (length (DataPoints data)))); auto.
      lia. }
    rewrite (GetTemperature_sorted server d data t t first lst); auto; try lia.
    rewrite <- Hp. do 4 f_equal. apply filter_ext. intros q. unfold in_range. lia.
Qed.

(** C3, as amended: for a non-empty device identifier that the store
    holds, [GetTemperature] with [endTime] strictly before [startTime]
    returns the zero response and the error "end time cannot be before
    start time", of kind [InvalidRange], whatever samples the device
    has. *)
Theorem GetTemperature_invalid_range server d data startTime endTime :
  d <> "" ->
  Data server !! d = Some data ->
  endTime < startTime ->
  GetTemperature server d startTime endTime
  = Some (ResponseBody_zero, Some (errors_New "end time cannot be before start time"))
  /\ kind (errors_New "end time cannot be before start time") = Some InvalidRange.
Proof.
  intros Hd Hdata Hrange. split; [|reflexivity].
  unfold GetTemperature. apply String.eqb_neq in Hd. rewrite Hd, Hdata.
  unfold Before. destruct (Z.ltb_spec endTime startTime); [reflexivity|lia].
Qed.

(** Witness of C3 (amended). *)
Lemma GetTemperature_invalid_range_witness :
  GetTemperature store_d1 "d1" 20 10
  = Some (ResponseBody_zero, Some (errors_New "end time cannot be before start time"))
  /\ kind (errors_New "end time cannot be before start time") = Some InvalidRange.
Proof.
  apply (GetTemperature_invalid_range store_d1 "d1"
    (mkDeviceData "sensor" [mkDataPoint 0 200; mkDataPoint 10 201; mkDataPoint 20 202]));
    [discriminate|reflexivity|lia].
Defined.

(** C3 as stated fails for a device the store does not hold: the
    existence check comes first, and the error is the [NotFound] one. *)
Lemma GetTemperature_invalid_range_counterexample :
  "device1" <> ""
  /\ 5 < 10
  /\ GetTemperature store_empty "device1" 10 5
     = Some (ResponseBody_zero, Some (errors_New "no data for this device ID"))
  /\ kind (errors_New "no data for this device ID") = Some NotFound
  /\ kind (errors_New "no data for this device ID") <> Some InvalidRange.
Proof.
  repeat split; try reflexivity; try discriminate.
Qed.

(** The range that misses the data, on a non-empty device identifier
    that the store holds with at least one sample: the zero response,
    and no other answer without an error has its fields unset. *)
Lemma GetTemperature_outside_of_data server d data startTime endTime first lst :
  d <> "" ->
  Data server !! d = Some data ->
  head (DataPoints data) = Some first ->
  last (DataPoints data) = Some lst ->
  (startTime <= endTime ->
   Timestamp lst < startTime \/ endTime < Timestamp first ->
   GetTemperature server d startTime endTime = Some (ResponseBody_zero, None))
  /\ (forall response,
        GetTemperature server d startTime endTime = Some (response, None) ->
        (DeviceID response = "" /\ DeviceType (Embedded response) = ""
         <-> Timestamp lst < startTime \/ endTime < Timestamp first)
        /\ (~ (Timestamp lst < startTime \/ endTime < Timestamp first) ->
            DeviceID response = d /\ DeviceType (Embedded response) = DeviceType data)).
Proof.
  intros Hd Hdata Hfirst Hlast. split.
  - intros Hrange Hout.
    rewrite (GetTemperature_found server d data startTime endTime first lst); auto.
    destruct (Z.ltb_spec (Timestamp lst) startTime); [reflexivity|].
    destruct (Z.ltb_spec endTime (Timestamp first)); [reflexivity|lia].
  - intros response Hres.
    assert (Hrange : startTime <= endTime).
    { destruct (Z.le_gt_cases startTime endTime) as [Hle|Hgt]; [exact Hle|].
      unfold GetTemperature in Hres. apply String.eqb_neq in Hd.
      rewrite Hd, Hdata in Hres. unfold Before in Hres.
      destruct (Z.ltb_spec endTime startTime); [discriminate|lia]. }
    rewrite (GetTemperature_found server d data startTime endTime first lst) in Hres; auto.
    destruct (Z.ltb_spec (Timestamp lst) startTime) as [Hl|Hl];
      [|destruct (Z.ltb_spec endTime (Timestamp first)) as [Hf|Hf]]; simpl in Hres.
    + injection Hres as <-. simpl. split; [tauto|]. intros Hnot. tauto.
    + injection Hres as <-. simpl. split; [tauto|]. intros Hnot. tauto.
    + destruct (slice _ _ _) as [points|]; [|discriminate].
      injection Hres as <-. simpl. split; [|tauto].
      split; [intros [Hempty _]; congruence|lia].
Qed.

(** ** [PostTemperature] *)

Section PostFacts.
Context `{SliceSorter}.

Lemma PostTemperature_accepts server id ty t v :
  id <> "" -> ty <> "" ->
  PostTemperature server id ty t v =
  (mkTemperatureApi
     (<[id := mkDeviceData ty
                (sort_Slice before_ts (stored server id ++ [mkDataPoint t v]))]>
        (Data server)), None).
Proof.
  intros Hid Hty. unfold PostTemperature.
  apply String.eqb_neq in Hid. apply String.eqb_neq in Hty.
  now rewrite Hid, Hty.
Qed.

Lemma PostTemperature_rejects server id ty t v :
  id = "" \/ ty = "" ->
  fst (PostTemperature server id ty t v) = server /\
  exists e, snd (PostTemperature server id ty t v) = Some e /\ kind e = Some InvalidInput.
Proof.
  intros Hbad. unfold PostTemperature.
  destruct (String.eqb_spec id ""); [simpl; eauto|].
  destruct (String.eqb_spec ty ""); [simpl; eauto|].
  tauto.
Qed.

Lemma PostTemperature_nil_iff server id ty t v :
  snd (PostTemperature server id ty t v) = None <-> id <> "" /\ ty <> "".
Proof.
  unfold PostTemperature.
  destruct (String.eqb_spec id ""); [simpl; split; [discriminate|tauto]|].
  destruct (String.eqb_spec ty ""); [simpl; split; [discriminate|tauto]|].
  simpl. tauto.
Qed.

(** The entry of the device after a call that returned [nil]. *)
Lemma PostTemperature_entry server d ty t v :
  snd (PostTemperature server d ty t v) = None ->
  Data (fst (PostTemperature server d ty t v)) !! d
  = Some (mkDeviceData ty (sort_Slice before_ts (stored server d ++ [mkDataPoint t v]))).
Proof.
  intros Hok. apply PostTemperature_nil_iff in Hok as [Hd Hty].
  rewrite PostTemperature_accepts by assumption. simpl. apply lookup_insert_eq.
Qed.

(** Every other entry is left alone, whatever the call returned. *)
Lemma PostTemperature_other server d d' ty t v :
  d' <> d ->
  Data (fst (PostTemperature server d ty t v)) !! d' = Data server !! d'.
Proof.
  intros Hne.
  destruct (String.eqb_spec d ""); [now rewrite (proj1 (PostTemperature_rejects _ _ _ _ _ (or_introl e)))|].
  destruct (String.eqb_spec ty ""); [now rewrite (proj1 (PostTemperature_rejects _ _ _ _ _ (or_intror e)))|].
  rewrite PostTemperature_accepts by assumption. simpl.
  apply lookup_insert_ne. congruence.
Qed.

(** C6: [PostTemperature] returns an error exactly when the device
    identifier or the device type is empty, and that error is an
    [InvalidInput] one; the number of samples plays no part: on a device
    that already holds [MaxDataPoints] samples or more the call with
    non-empty arguments returns [nil] and stores one sample more. *)
Theorem PostTemperature_error_iff server id ty t v :
  (snd (PostTemperature server id ty t v) <> None <-> id = "" \/ ty = "")
  /\ (forall e, snd (PostTemperature server id ty t v) = Some e ->
        kind e = Some InvalidInput)
  /\ (forall data, Data server !! id = Some data ->
        MaxDataPoints <= Z.of_nat (length (DataPoints data)) ->
        id <> "" -> ty <> "" ->
        snd (PostTemperature server id ty t v) = None /\
        exists data', Data (fst (PostTemperature server id ty t v)) !! id = Some data' /\
          length (DataPoints data') = S (length (DataPoints data))).
Proof.
  split; [|split].
  - rewrite PostTemperature_nil_iff.
    destruct (String.eqb_spec id ""), (String.eqb_spec ty ""); tauto.
  - intros e He.
    destruct (String.eqb_spec id "") as [Hid|Hid].
    { destruct (PostTemperature_rejects server id ty t v (or_introl Hid)) as (_ & e' & He' & Hk).
      congruence. }
    destruct (String.eqb_spec ty "") as [Hty|Hty].
    { destruct (PostTemperature_rejects server id ty t v (or_intror Hty)) as (_ & e' & He' & Hk).
      congruence. }
    rewrite PostTemperature_accepts in He by assumption. discriminate.
  - intros data Hdata Hfull Hid Hty.
    assert (Hok : snd (PostTemperature server id ty t v) = None)
      by (apply PostTemperature_nil_iff; auto).
    split; [exact Hok|].
    eexists. split; [apply PostTemperature_entry; exact Hok|]. simpl.
    rewrite <- (Permutation_length (sort_Slice_perm _ before_ts _)).
    unfold stored. rewrite Hdata. simpl. rewrite length_app. simpl. lia.
Qed.

(** C7: with an empty device identifier, or an empty device type,
    [PostTemperature] returns an [InvalidInput] error and the store it
    leaves is the store it was given. *)
Theorem PostTemperature_invalid_input server id ty t v :
  id = "" \/ ty = "" ->
  fst (PostTemperature server id ty t v) = server
  /\ exists e, snd (PostTemperature server id ty t v) = Some e
       /\ kind e = Some InvalidInput.
Proof.
  intros Hbad. unfold PostTemperature.
  destruct (String.eqb_spec id "") as [Hid|Hid].
  - split; [reflexivity|]. eexists. split; reflexivity.
  - destruct (String.eqb_spec ty "") as [Hty|Hty].
    + split; [reflexivity|]. eexists. split; reflexivity.
    + destruct Hbad; contradiction.
Qed.

(** C10: a [PostTemperature] call for [d] that returns [nil] leaves the
    entry of every other device identifier as it was, and the samples
    stored for [d] afterwards are those stored before together with the
    new one, in some order: one sample more, an existing sample with the
    same timestamp neither dropped nor replaced. *)
Theorem PostTemperature_frame server d ty t v :
  snd (PostTemperature server d ty t v) = None ->
  (forall d', d' <> d ->
     Data (fst (PostTemperature server d ty t v)) !! d' = Data server !! d')
  /\ exists data',
       Data (fst (PostTemperature server d ty t v)) !! d = Some data'
       /\ length (DataPoints data') = S (length (stored server d))
       /\ Permutation (DataPoints data') (stored server d ++ [mkDataPoint t v]).
Proof.
  intros Hok. split.
  - intros d' Hne. now apply PostTemperature_other.
  - eexists. split; [apply PostTemperature_entry; exact Hok|]. simpl.
    pose proof (sort_Slice_perm _ before_ts (stored server d ++ [mkDataPoint t v])) as Hperm.
    split; [|now symmetry].
    rewrite <- (Permutation_length Hperm), length_app. simpl. lia.
Qed.

End PostFacts.

(** ** Histories *)

Lemma recorded_samples (d : string) (h : list Event) :
  recorded d h <-> samples_of d h <> [].
Proof.
  unfold recorded. induction h as [|ev h IH]; simpl.
  - split; [intros (ty & t & v & []) | congruence].
  - destruct ev as [id ty t v [e|]|id a b res].
    + rewrite <- IH. split; intros (ty' & t' & v' & Hin); exists ty', t', v'.
      * destruct Hin as [Heq|Hin]; [discriminate|exact Hin].
      * now right.
    + destruct (String.eqb_spec id d) as [->|Hne].
      * split; [intros _; now destruct (samples_of d h)|].
        intros _. exists ty, t, v. now left.
      * rewrite <- IH. split; intros (ty' & t' & v' & Hin); exists ty', t', v'.
        -- destruct Hin as [Heq|Hin]; [congruence|exact Hin].
        -- now right.
    + rewrite <- IH. split; intros (ty' & t' & v' & Hin); exists ty', t', v'.
      * destruct Hin as [Heq|Hin]; [discriminate|exact Hin].
      * now right.
Qed.

Section TraceFacts.
Context `{SliceSorter}.

(** One step of a history, seen from the device [d]: either the step is
    a [PostTemperature] for [d] that returned [nil], or the entry of [d]
    and what the history says about [d] are unchanged. *)
Lemma Posted_cases (d : string) (s : TemperatureApi) (h : list Event) id ty t v :
  (id = d /\ snd (PostTemperature s id ty t v) = None /\
   samples_of d (Posted id ty t v (snd (PostTemperature s id ty t v)) :: h)
     = samples_of d h ++ [mkDataPoint t v] /\
   last_type d (Posted id ty t v (snd (PostTemperature s id ty t v)) :: h) = Some ty)
  \/
  (Data (fst (PostTemperature s id ty t v)) !! d = Data s !! d /\
   samples_of d (Posted id ty t v (snd (PostTemperature s id ty t v)) :: h)
     = samples_of d h /\
   last_type d (Posted id ty t v (snd (PostTemperature s id ty t v)) :: h)
     = last_type d h).
Proof.
  destruct (snd (PostTemperature s id ty t v)) as [e|] eqn:Herr.
  - right. simpl. split; [|split; reflexivity].
    assert (Hbad : id = "" \/ ty = "").
    { destruct (String.eqb_spec id ""); [tauto|].
      destruct (String.eqb_spec ty ""); [tauto|].
      assert (snd (PostTemperature s id ty t v) = None)
        by (apply PostTemperature_nil_iff; auto).
      congruence. }
    now rewrite (proj1 (PostTemperature_rejects s id ty t v Hbad)).
  - simpl. destruct (String.eqb_spec id d) as [->|Hne].
    + left. auto.
    + right. split; [|split; reflexivity]. apply PostTemperature_other. congruence.
Qed.

(** After any history with a recorded sample for [d], whatever the
    store it started from, [d] is a key and its samples are sorted. *)
Lemma Trace_sorted s0 s h d :
  Trace s0 s h -> samples_of d h <> [] ->
  exists data, Data s !! d = Some data /\ sorted_by before_ts (DataPoints data).
Proof.
  induction 1 as [|s h id ty t v Htr IH|s h id a b Htr IH]; intros Hrec.
  - now simpl in Hrec.
  - destruct (Posted_cases d s h id ty t v) as [(-> & Hok & Hs & _)|(Hdata & Hs & _)].
    + rewrite (PostTemperature_entry s d ty t v Hok). eexists. split; [reflexivity|].
      simpl. apply sort_Slice_sorted, before_ts_StrictWeak.
    + rewrite Hdata. apply IH. now rewrite <- Hs.
  - apply IH. exact Hrec.
Qed.

Lemma Trace_entry x s h d :
  Trace (Init x) s h -> entry_agrees d (Data s !! d) h.
Proof.
  induction 1 as [|s h id ty t v Htr IH|s h id a b Htr IH].
  - reflexivity.
  - destruct (Posted_cases d s h id ty t v) as [(-> & Hok & Hs & Hty)|(Hdata & Hs & Hty)].
    + unfold entry_agrees in *.
      rewrite (PostTemperature_entry s d ty t v Hok), Hs, Hty. simpl.
      apply PostTemperature_nil_iff in Hok as [Hd _].
      split; [exact Hd|]. split; [reflexivity|]. split; [|now destruct (samples_of d h)].
      rewrite <- sort_Slice_perm. apply Permutation_app_tail.
      unfold stored.
      destruct (Data s !! d) as [data|]; simpl; [tauto|now rewrite IH].
    + unfold entry_agrees in *. now rewrite Hdata, Hs, Hty.
  - exact IH.
Qed.

End TraceFacts.

(** ** Invariants of the store *)

Lemma filter_all {A : Type} (g : A -> bool) (l : list A) :
  (forall x, In x l -> g x = true) -> List.filter g l = l.
Proof.
  induction l as [|y l IH]; intros Hg; simpl; [reflexivity|].
  rewrite (Hg y) by now left. f_equal. apply IH. intros x Hx. apply Hg. now right.
Qed.

Lemma sorted_distinct_strict (s : list DataPoint) :
  sorted_samples s -> List.NoDup (map Timestamp s) ->
  StronglySorted (fun a b => Timestamp a < Timestamp b) s.
Proof.
  induction 1 as [|x s Hs IH Hx]; intros Hnd; constructor.
  - apply IH. now inversion Hnd.
  - rewrite Forall_forall in Hx. apply Forall_forall. intros y Hy.
    specialize (Hx y Hy). simpl in Hx.
    assert (Timestamp x <> Timestamp y); [|lia].
    intros Heq. inversion Hnd as [|? ? Hnotin _]; subst. apply Hnotin.
    rewrite Heq. apply in_map. now apply list_elem_of_In.
Qed.

Section StoreInvariants.
Context `{SliceSorter}.

(** C2: after any sequence of calls, from any store, in which at least
    one [PostTemperature] for [d] returned [nil], the store holds [d] and
    the samples of [d] are sorted non-decreasing by timestamp; as every
    prefix of a sequence of calls is one, this holds after each call. *)
Theorem PostTemperature_keeps_sorted s0 s h d :
  Trace s0 s h ->
  recorded d h ->
  exists data, Data s !! d = Some data /\ sorted_samples (DataPoints data).
Proof.
  intros Htr Hrec. apply recorded_samples in Hrec.
  destruct (Trace_sorted s0 s h d Htr Hrec) as (data & Hdata & Hs).
  exists data. split; [exact Hdata|]. now apply sorted_samples_by.
Qed.

(** C4: after a sequence of calls that starts with [Init], if the
    samples recorded for [d] have distinct timestamps, [tmin] the least
    and [tmax] the greatest of them, then [GetTemperature d tmin tmax]
    returns, with no error, [d], the type of the last recording and a
    list that holds exactly the recorded samples, timestamp and value,
    in strictly increasing order of timestamp. *)
Theorem record_then_query_roundtrip x s h d tmin tmax :
  Trace (Init x) s h ->
  List.NoDup (map Timestamp (samples_of d h)) ->
  In tmin (map Timestamp (samples_of d h)) ->
  (forall t, In t (map Timestamp (samples_of d h)) -> tmin <= t) ->
  In tmax (map Timestamp (samples_of d h)) ->
  (forall t, In t (map Timestamp (samples_of d h)) -> t <= tmax) ->
  exists ty points,
    GetTemperature s d tmin tmax
    = Some (mkResponseBody (mkDeviceData ty points) d, None)
    /\ last_type d h = Some ty
    /\ Permutation points (samples_of d h)
    /\ length points = length (samples_of d h)
    /\ StronglySorted (fun a b => Timestamp a < Timestamp b) points.
Proof.
  intros Htr Hnd Hmin Hlow Hmax Hhigh.
  assert (Hrec : samples_of d h <> []).
  { intros Heq. now rewrite Heq in Hmin. }
  pose proof (Trace_entry x s h d Htr) as Hentry.
  destruct (Trace_sorted _ s h d Htr Hrec) as (data & Hdata & Hsorted).
  unfold entry_agrees in Hentry. rewrite Hdata in Hentry.
  destruct Hentry as (Hd & Hty & Hperm & _).
  assert (Hin : forall p, In p (DataPoints data) -> tmin <= Timestamp p <= tmax).
  { intros p Hp. apply (Permutation_in _ Hperm) in Hp.
    apply (in_map Timestamp) in Hp. split; auto. }
  assert (Hne : DataPoints data <> []).
  { intros Heq. rewrite Heq in Hperm. apply Permutation_nil in Hperm. congruence. }
  destruct (proj2 (head_is_Some (DataPoints data)) Hne) as [first Hfirst].
  destruct (proj2 (last_is_Some (DataPoints data)) Hne) as [lst Hlast].
  assert (Hf : In first (DataPoints data)).
  { apply list_elem_of_In. now apply head_Some_elem_of. }
  assert (Hl : In lst (DataPoints data)).
  { apply list_elem_of_In. now apply last_Some_elem_of. }
  exists (DeviceType data), (DataPoints data).
  split; [|split; [exact Hty|split; [exact Hperm|split]]].
  - pose proof (Hin first Hf). pose proof (Hin lst Hl).
    rewrite (GetTemperature_sorted s d data tmin tmax first lst); auto; try lia.
    rewrite filter_all; [now destruct data|].
    intros p Hp. specialize (Hin p Hp). unfold in_range. lia.
  - now apply Permutation_length.
  - apply sorted_distinct_strict; [now apply sorted_samples_by|].
    eapply Permutation_NoDup; [|exact Hnd].
    apply Permutation_map. now symmetry.
Qed.

(** C1: in every store that a sequence of calls starting with [Init]
    leaves, for a device [d] of the store with its samples sorted by
    timestamp, and a range with [startTime <= endTime] that starts no
    later than the last sample and ends no earlier than the first,
    [GetTemperature] returns, with no error, [d], the stored device type
    and exactly the samples whose timestamp lies in
    [startTime, endTime]; they form a contiguous slice [i:j] of the
    stored samples, in stored order; and for the instant [t] of exactly
    one stored sample, [GetTemperature d t t] returns that sample and no
    other. *)
Theorem GetTemperature_range_slice x server h d data :
  Trace (Init x) server h ->
  Data server !! d = Some data ->
  sorted_samples (DataPoints data) ->
  (forall startTime endTime first lst,
     head (DataPoints data) = Some first ->
     last (DataPoints data) = Some lst ->
     startTime <= endTime ->
     startTime <= Timestamp lst ->
     Timestamp first <= endTime ->
     GetTemperature server d startTime endTime =
       Some (mkResponseBody
               (mkDeviceData (DeviceType data)
                  (List.filter (in_range startTime endTime) (DataPoints data))) d, None)
     /\ exists i j, (i <= j <= length (DataPoints data))%nat /\
          List.filter (in_range startTime endTime) (DataPoints data)
          = take (j - i) (drop i (DataPoints data)))
  /\ (forall t p,
        List.filter (fun q => Timestamp q =? t) (DataPoints data) = [p] ->
        GetTemperature server d t t =
          Some (mkResponseBody (mkDeviceData (DeviceType data) [p]) d, None)).
Proof.
  intros Htr Hdata Hsorted.
  pose proof (Trace_entry x server h d Htr) as Hentry.
  unfold entry_agrees in Hentry. rewrite Hdata in Hentry.
  destruct Hentry as (Hd & _).
  exact (GetTemperature_range_of_sorted server d data Hd Hdata Hsorted).
Qed.

(** C5: in every store that a sequence of calls starting with [Init]
    leaves, for a device [d] of the store with at least one sample:
    when [startTime <= endTime] and the range starts strictly after the
    last sample or ends strictly before the first, [GetTemperature]
    returns the zero response (no device identifier, no device type, no
    sample) and no error; and among the answers without an error these
    are the only ones with the device identifier and the device type
    unset: every other one carries the identifier [d] and the stored
    device type. *)
Theorem GetTemperature_outside_range x server h d data startTime endTime first lst :
  Trace (Init x) server h ->
  Data server !! d = Some data ->
  head (DataPoints data) = Some first ->
  last (DataPoints data) = Some lst ->
  (startTime <= endTime ->
   Timestamp lst < startTime \/ endTime < Timestamp first ->
   GetTemperature server d startTime endTime = Some (ResponseBody_zero, None))
  /\ (forall response,
        GetTemperature server d startTime endTime = Some (response, None) ->
        (DeviceID response = "" /\ DeviceType (Embedded response) = ""
         <-> Timestamp lst < startTime \/ endTime < Timestamp first)
        /\ (~ (Timestamp lst < startTime \/ endTime < Timestamp first) ->
            DeviceID response = d /\ DeviceType (Embedded response) = DeviceType data)).
Proof.
  intros Htr Hdata Hfirst Hlast.
  pose proof (Trace_entry x server h d Htr) as Hentry.
  unfold entry_agrees in Hentry. rewrite Hdata in Hentry.
  destruct Hentry as (Hd & _).
  exact (GetTemperature_outside_of_data server d data startTime endTime first lst
           Hd Hdata Hfirst Hlast).
Qed.

(** C8, as amended: after a sequence of calls that starts with [Init],
    a device identifier is a key of the store exactly when some
    [PostTemperature] for it returned [nil]; every stored device has at
    least one sample; and [GetTemperature] for a non-empty identifier
    never recorded returns the zero response and the error "no data for
    this device ID", of kind [NotFound]. *)
Theorem store_keys_are_recorded x s h d :
  Trace (Init x) s h ->
  (d ∈ dom (Data s) <-> recorded d h)
  /\ (forall data, Data s !! d = Some data -> DataPoints data <> [])
  /\ (~ recorded d h -> d <> "" -> forall startTime endTime,
        GetTemperature s d startTime endTime
        = Some (ResponseBody_zero, Some (errors_New "no data for this device ID")))
  /\ kind (errors_New "no data for this device ID") = Some NotFound.
Proof.
  intros Htr. pose proof (Trace_entry x s h d Htr) as Hentry.
  unfold entry_agrees in Hentry.
  rewrite recorded_samples, elem_of_dom.
  split; [|split; [|split; [|reflexivity]]].
  - destruct (Data s !! d) as [data|].
    + split; [tauto|eauto].
    + split; [intros [? ?]; discriminate|congruence].
  - intros data Hdata. rewrite Hdata in Hentry.
    destruct Hentry as (_ & _ & Hperm & Hne). intros Heq. rewrite Heq in Hperm.
    apply Permutation_nil in Hperm. congruence.
  - intros Hnot Hd startTime endTime. unfold GetTemperature.
    apply String.eqb_neq in Hd. rewrite Hd.
    destruct (Data s !! d) as [data|]; [tauto|reflexivity].
Qed.

(** C9: after a sequence of calls that starts with [Init], the device
    type stored for [d] is the one given to the most recent
    [PostTemperature] for [d] that returned [nil]; one more such call
    stores its own device type, whatever type was stored; and the error
    a call returns does not depend on the store, so no check against
    the stored type exists. *)
Theorem device_type_last_write_wins x s h d :
  Trace (Init x) s h ->
  DeviceType <$> (Data s !! d) = last_type d h
  /\ (forall ty t v, snd (PostTemperature s d ty t v) = None ->
        DeviceType <$> (Data (fst (PostTemperature s d ty t v)) !! d) = Some ty)
  /\ (forall s' ty t v,
        snd (PostTemperature s d ty t v) = snd (PostTemperature s' d ty t v)).
Proof.
  intros Htr. pose proof (Trace_entry x s h d Htr) as Hentry.
  unfold entry_agrees in Hentry. split; [|split].
  - destruct (Data s !! d) as [data|]; simpl.
    + now destruct Hentry as (_ & -> & _).
    + clear Htr. induction h as [|ev h IH]; [reflexivity|].
      simpl in *. destruct ev as [id ty t v [e|]|id a b res]; auto.
      destruct (String.eqb id d); [now destruct (samples_of d h)|auto].
  - intros ty t v Hok. now rewrite (PostTemperature_entry s d ty t v Hok).
  - intros s' ty t v. unfold PostTemperature.
    destruct (String.eqb d ""); [reflexivity|].
    destruct (String.eqb ty ""); reflexivity.
Qed.

End StoreInvariants.

(** ** The theorems at work on a small history *)

Lemma replay_Trace s0 calls s h :
  Trace s0 s h -> Trace s0 (fst (replay s calls h)) (snd (replay s calls h)).
Proof.
  revert s h. induction calls as [|[[[id ty] t] v] calls IH]; intros s h Htr; simpl.
  - exact Htr.
  - apply IH. now constructor.
Defined.

Lemma Trace_log : Trace (Init (mkTemperatureApi ∅)) store_log history_log.
Proof. apply replay_Trace. constructor. Defined.

Example samples_of_log :
  samples_of "d1" history_log
  = [mkDataPoint 20 202; mkDataPoint 0 200; mkDataPoint 10 201].
Proof. reflexivity. Qed.

Example store_log_d1 :
  Data store_log !! "d1"
  = Some (mkDeviceData "thermo" [mkDataPoint 0 200; mkDataPoint 10 201; mkDataPoint 20 202]).
Proof. vm_compute. reflexivity. Qed.

(** The scenario of three samples ten seconds apart: the whole range,
    a range around the middle sample, and a range before the first. *)
Example query_whole_range :
  GetTemperature store_log "d1" 0 20
  = Some (mkResponseBody (mkDeviceData "thermo"
            [mkDataPoint 0 200; mkDataPoint 10 201; mkDataPoint 20 202]) "d1", None).
Proof. vm_compute. reflexivity. Qed.

Example query_middle :
  GetTemperature store_log "d1" 5 15
  = Some (mkResponseBody (mkDeviceData "thermo" [mkDataPoint 10 201]) "d1", None).
Proof. vm_compute. reflexivity. Qed.

Example query_before :
  GetTemperature store_log "d1" (-3600) (-1) = Some (ResponseBody_zero, None).
Proof. vm_compute. reflexivity. Qed.

(** Witness of C1: the instant of the middle sample. *)
Lemma GetTemperature_range_slice_witness :
  GetTemperature store_log "d1" 10 10
  = Some (mkResponseBody (mkDeviceData "thermo" [mkDataPoint 10 201]) "d1", None).
Proof.
  assert (Hsorted : sorted_samples
            [mkDataPoint 0 200; mkDataPoint 10 201; mkDataPoint 20 202])
    by (repeat constructor; simpl; lia).
  destruct (GetTemperature_range_slice _ store_log history_log "d1"
    (mkDeviceData "thermo" [mkDataPoint 0 200; mkDataPoint 10 201; mkDataPoint 20 202])
    Trace_log store_log_d1 Hsorted) as [_ Hone].
  apply Hone. reflexivity.
Defined.

(** Witness of C5: a range one hour before the samples. *)
Lemma GetTemperature_outside_range_witness :
  GetTemperature store_log "d1" (-3600) (-1) = Some (ResponseBody_zero, None).
Proof.
  destruct (GetTemperature_outside_range _ store_log history_log "d1"
    (mkDeviceData "thermo" [mkDataPoint 0 200; mkDataPoint 10 201; mkDataPoint 20 202])
    (-3600) (-1) (mkDataPoint 0 200) (mkDataPoint 20 202)
    Trace_log store_log_d1 eq_refl eq_refl) as [Hout _].
  apply Hout; [lia|]. right. simpl. lia.
Defined.

(** Witness of C2. *)
Lemma PostTemperature_keeps_sorted_witness :
  recorded "d1" history_log
  /\ exists data, Data store_log !! "d1" = Some data /\ sorted_samples (DataPoints data).
Proof.
  assert (Hrec : recorded "d1" history_log).
  { exists "thermo", 10, 201. left. reflexivity. }
  split; [exact Hrec|].
  exact (PostTemperature_keeps_sorted _ _ _ "d1" Trace_log Hrec).
Defined.

(** Witness of C4. *)
Lemma record_then_query_roundtrip_witness :
  exists ty points,
    GetTemperature store_log "d1" 0 20
    = Some (mkResponseBody (mkDeviceData ty points) "d1", None)
    /\ last_type "d1" history_log = Some ty
    /\ Permutation points (samples_of "d1" history_log)
    /\ length points = length (samples_of "d1" history_log)
    /\ StronglySorted (fun a b => Timestamp a < Timestamp b) points.
Proof.
  apply (record_then_query_roundtrip _ _ _ "d1" 0 20 Trace_log).
  - rewrite samples_of_log. simpl.
    repeat constructor; simpl; intuition discriminate.
  - rewrite samples_of_log. simpl. tauto.
  - rewrite samples_of_log. simpl. intros t Ht. lia.
  - rewrite samples_of_log. simpl. tauto.
  - rewrite samples_of_log. simpl. intros t Ht. lia.
Defined.

(** Witness of C8 (amended). *)
Lemma store_keys_are_recorded_witness :
  ("d3" ∈ dom (Data store_log) <-> recorded "d3" history_log)
  /\ (forall data, Data store_log !! "d3" = Some data -> DataPoints data <> [])
  /\ (~ recorded "d3" history_log -> "d3" <> "" -> forall startTime endTime,
        GetTemperature store_log "d3" startTime endTime
        = Some (ResponseBody_zero, Some (errors_New "no data for this device ID")))
  /\ kind (errors_New "no data for this device ID") = Some NotFound.
Proof.
  exact (store_keys_are_recorded _ _ _ "d3" Trace_log).
Defined.

(** C8 as stated fails for the empty device identifier, which no call
    can record: [GetTemperature] answers it with the empty-identifier
    error, of kind [InvalidInput], before it looks into the store. *)
Lemma store_keys_are_recorded_counterexample :
  Trace (Init (mkTemperatureApi ∅)) store_empty []
  /\ ~ recorded "" []
  /\ GetTemperature store_empty "" 0 1
     = Some (ResponseBody_zero, Some (errors_New "device ID cannot be empty"))
  /\ kind (errors_New "device ID cannot be empty") = Some InvalidInput
  /\ GetTemperature store_empty "" 0 1
     <> Some (ResponseBody_zero, Some (errors_New "no data for this device ID")).
Proof.
  split; [constructor|]. split; [intros (ty & t & v & [])|].
  repeat split; try reflexivity. discriminate.
Qed.

(** Witness of C9. *)
Lemma device_type_last_write_wins_witness :
  DeviceType <$> (Data store_log !! "d1") = Some "thermo"
  /\ DeviceType <$> (Data (fst (PostTemperature store_log "d1" "gauge" 30 203)) !! "d1")
     = Some "gauge".
Proof.
  destruct (device_type_last_write_wins _ _ _ "d1" Trace_log) as (Hlast & Hnext & _).
  split; [exact Hlast|]. apply Hnext. reflexivity.
Defined.

(** Witness of C7. *)
Lemma PostTemperature_invalid_input_witness :
  fst (PostTemperature store_d1 "d1" "" 30 203) = store_d1
  /\ exists e, snd (PostTemperature store_d1 "d1" "" 30 203) = Some e
       /\ kind e = Some InvalidInput.
Proof.
  apply PostTemperature_invalid_input. right. reflexivity.
Defined.

(** Witness of C10: a second sample at a timestamp already stored. *)
Lemma PostTemperature_frame_witness :
  (forall d', d' <> "d1" ->
     Data (fst (PostTemperature store_d1 "d1" "sensor" 10 999)) !! d' = Data store_d1 !! d')
  /\ exists data',
       Data (fst (PostTemperature store_d1 "d1" "sensor" 10 999)) !! "d1" = Some data'
       /\ length (DataPoints data') = S (length (stored store_d1 "d1"))
       /\ Permutation (DataPoints data') (stored store_d1 "d1" ++ [mkDataPoint 10 999]).
Proof.
  apply PostTemperature_frame. reflexivity.
Defined.

Example PostTemperature_duplicate_timestamp :
  DataPoints <$> (Data (fst (PostTemperature store_d1 "d1" "sensor" 10 999)) !! "d1")
  = Some [mkDataPoint 0 200; mkDataPoint 10 201; mkDataPoint 10 999; mkDataPoint 20 202].
Proof. vm_compute. reflexivity. Qed.

(** Witness of C6: one more sample on a full device. *)
Lemma PostTemperature_error_iff_witness :
  snd (PostTemperature store_full "d1" "sensor" 1 1) = None
  /\ exists data',
       Data (fst (PostTemperature store_full "d1" "sensor" 1 1)) !! "d1" = Some data'
       /\ length (DataPoints data')
          = S (length (replicate (Z.to_nat MaxDataPoints) (mkDataPoint 0 0))).
Proof.
  destruct (PostTemperature_error_iff store_full "d1" "sensor" 1 1) as (_ & _ & Hfull).
  apply (Hfull (mkDeviceData "sensor" (replicate (Z.to_nat MaxDataPoints) (mkDataPoint 0 0)))).
  - reflexivity.
  - cbv beta iota delta [DataPoints]. rewrite length_replicate.
    vm_compute. discriminate.
  - discriminate.
  - discriminate.
Defined.

(** ** Further properties of [GetTemperature] *)

(** [GetTemperature] reads the store through the entry of the device it
    is asked about, and through nothing else. *)
Lemma GetTemperature_ext s1 s2 d startTime endTime :
  Data s1 !! d = Data s2 !! d ->
  GetTemperature s1 d startTime endTime = GetTemperature s2 d startTime endTime.
Proof. intros Heq. unfold GetTemperature. now rewrite Heq. Qed.

(** In a sorted slice every timestamp lies between the first and the
    last. *)
Lemma sorted_between (s : list DataPoint) (first lst p : DataPoint) :
  sorted_by before_ts s ->
  head s = Some first -> last s = Some lst -> In p s ->
  Timestamp first <= Timestamp p <= Timestamp lst.
Proof.
  intros Hs Hfirst Hlast Hp.
  apply list_elem_of_In, list_elem_of_lookup in Hp as [a Ha].
  pose proof (lookup_lt_Some _ _ _ Ha) as Hlt.
  rewrite head_lookup in Hfirst. rewrite last_lookup in Hlast. split.
  - apply (sorted_by_lookup s 0 a); auto. lia.
  - apply (sorted_by_lookup s a (pred (length s))); auto. lia.
Qed.

Lemma filter_none {A : Type} (g : A -> bool) (l : list A) :
  (forall x, In x l -> g x = false) -> List.filter g l = [].
Proof.
  induction l as [|y l IH]; intros Hg; simpl; [reflexivity|].
  rewrite (Hg y) by now left. apply IH. intros x Hx. apply Hg. now right.
Qed.

Lemma strictly_increasing_sorted (s : list DataPoint) :
  strictly_increasing s -> sorted_samples s.
Proof.
  unfold strictly_increasing, sorted_samples.
  induction 1 as [|x s Hs IH Hx]; constructor; auto.
  eapply Forall_impl; [exact Hx|]. simpl. intros y Hy. lia.
Qed.

Lemma strictly_increasing_lookup (s : list DataPoint) (a b : nat) (p q : DataPoint) :
  strictly_increasing s -> (a < b)%nat -> s !! a = Some p -> s !! b = Some q ->
  Timestamp p < Timestamp q.
Proof.
  intros Hs. revert a b. induction Hs as [|x s Hs IH Hx]; intros a b Hab Ha Hb.
  - discriminate.
  - destruct b as [|b]; [lia|]. destruct a as [|a]; simpl in *.
    + injection Ha as <-. rewrite Forall_forall in Hx. apply Hx.
      eapply list_elem_of_lookup_2. exact Hb.
    + apply (IH a b); auto. lia.
Qed.

(** An answer without an error passed the three input checks. *)
Lemma GetTemperature_nil_inv server d startTime endTime response :
  GetTemperature server d startTime endTime = Some (response, None) ->
  d <> "" /\ is_Some (Data server !! d) /\ startTime <= endTime.
Proof.
  unfold GetTemperature. intros Hres.
  destruct (String.eqb_spec d ""); [discriminate|].
  destruct (Data server !! d); [|discriminate].
  unfold Before in Hres. destruct (Z.ltb_spec endTime startTime); [discriminate|].
  eauto.
Qed.

(** X1: [GetTemperature] never panics, whatever the store holds, sorted
    or not: the search for the end of the range never stops before the
    search for its start, so the slice expression is always within
    bounds. *)
Theorem GetTemperature_never_panics server d startTime endTime :
  exists response err,
    GetTemperature server d startTime endTime = Some (response, err).
Proof.
  destruct (GetTemperature_no_panic server d startTime endTime) as [[response err] Hres].
  now exists response, err.
Qed.

Example GetTemperature_unsorted :
  GetTemperature store_unsorted "d1" 2 8
  = Some (mkResponseBody (mkDeviceData "sensor" []) "d1", None).
Proof. vm_compute. reflexivity. Qed.

(** When the three input checks pass, [GetTemperature] returns no
    error. *)
Lemma GetTemperature_nil server d startTime endTime :
  d <> "" -> is_Some (Data server !! d) -> startTime <= endTime ->
  exists response,
    GetTemperature server d startTime endTime = Some (response, None).
Proof.
  intros Hd [data Hdata] Hrange. unfold GetTemperature.
  apply String.eqb_neq in Hd. rewrite Hd, Hdata.
  unfold Before at 1. destruct (Z.ltb_spec endTime startTime); [lia|].
  destruct (length (DataPoints data) =? 0)%nat; [eauto|]. cbv zeta.
  match goal with |- context [if ?c then _ else _] => destruct c; [eauto|] end.
  destruct (GetTemperature_slice_defined (DataPoints data) startTime endTime Hrange)
    as [points Hpoints].
  rewrite Hpoints. eauto.
Qed.

(** X2: [GetTemperature] returns an error exactly when the device
    identifier is empty, or the store has no entry for it, or [endTime]
    is before [startTime]: each failed check gives its own error, the
    checks are made in this order and the first that fails decides; the
    response that comes with an error is the zero value; when all three
    checks pass the call returns no error; so an error is always one of
    the three, for the check that failed, and an answer without an error
    means that all three passed. *)
Theorem GetTemperature_error_iff server d startTime endTime :
  (d = "" ->
     GetTemperature server d startTime endTime
     = Some (ResponseBody_zero, Some (errors_New "device ID cannot be empty")))
  /\ (d <> "" -> Data server !! d = None ->
     GetTemperature server d startTime endTime
     = Some (ResponseBody_zero, Some (errors_New "no data for this device ID")))
  /\ (d <> "" -> is_Some (Data server !! d) -> endTime < startTime ->
     GetTemperature server d startTime endTime
     = Some (ResponseBody_zero, Some (errors_New "end time cannot be before start time")))
  /\ (forall response,
        GetTemperature server d startTime endTime = Some (response, None) ->
        d <> "" /\ is_Some (Data server !! d) /\ startTime <= endTime)
  /\ (d <> "" -> is_Some (Data server !! d) -> startTime <= endTime ->
        exists response,
          GetTemperature server d startTime endTime = Some (response, None))
  /\ (forall response e,
        GetTemperature server d startTime endTime = Some (response, Some e) ->
        response = ResponseBody_zero /\
        ((d = "" /\ e = errors_New "device ID cannot be empty")
         \/ (d <> "" /\ Data server !! d = None /\
             e = errors_New "no data for this device ID")
         \/ (d <> "" /\ is_Some (Data server !! d) /\ endTime < startTime /\
             e = errors_New "end time cannot be before start time")))
  /\ ((exists response e,
         GetTemperature server d startTime endTime = Some (response, Some e))
      <-> d = "" \/ Data server !! d = None \/ endTime < startTime).
Proof.
  assert (Hempty : d = "" ->
    GetTemperature server d startTime endTime
    = Some (ResponseBody_zero, Some (errors_New "device ID cannot be empty"))).
  { intros ->. reflexivity. }
  assert (Hmissing : d <> "" -> Data server !! d = None ->
    GetTemperature server d startTime endTime
    = Some (ResponseBody_zero, Some (errors_New "no data for this device ID"))).
  { intros Hd Hnone. unfold GetTemperature.
    apply String.eqb_neq in Hd. now rewrite Hd, Hnone. }
  assert (Hrange : d <> "" -> is_Some (Data server !! d) -> endTime < startTime ->
    GetTemperature server d startTime endTime
    = Some (ResponseBody_zero, Some (errors_New "end time cannot be before start time"))).
  { intros Hd [data Hdata] Hlt. unfold GetTemperature.
    apply String.eqb_neq in Hd. rewrite Hd, Hdata.
    unfold Before. destruct (Z.ltb_spec endTime startTime); [reflexivity|lia]. }
  assert (Hcases : forall response e,
    GetTemperature server d startTime endTime = Some (response, Some e) ->
    response = ResponseBody_zero /\
    ((d = "" /\ e = errors_New "device ID cannot be empty")
     \/ (d <> "" /\ Data server !! d = None /\
         e = errors_New "no data for this device ID")
     \/ (d <> "" /\ is_Some (Data server !! d) /\ endTime < startTime /\
         e = errors_New "end time cannot be before start time"))).
  { intros response e Hres.
    destruct (String.eqb_spec d "") as [Hd|Hd].
    { rewrite (Hempty Hd) in Hres. injection Hres as <- <-. auto. }
    destruct (Data server !! d) as [data|] eqn:Hdata.
    2:{ rewrite (Hmissing Hd eq_refl) in Hres. injection Hres as <- <-. auto 6. }
    destruct (Z.lt_ge_cases endTime startTime) as [Hlt|Hge].
    { rewrite (Hrange Hd ltac:(eauto) Hlt) in Hres. injection Hres as <- <-.
      split; [reflexivity|]. right. right. eauto. }
    destruct (GetTemperature_nil server d startTime endTime Hd) as [response' Hnil];
      [rewrite Hdata; eauto|lia|].
    rewrite Hnil in Hres. discriminate. }
  split; [exact Hempty|]. split; [exact Hmissing|]. split; [exact Hrange|].
  split; [intros response; apply GetTemperature_nil_inv|].
  split; [apply GetTemperature_nil|]. split; [exact Hcases|].
  split.
  - intros (response & e & Hres).
    destruct (Hcases response e Hres) as (_ & [(Hd & _)|[(_ & Hnone & _)|(_ & _ & Hlt & _)]]);
      auto.
  - intros Hfail. destruct (String.eqb_spec d "") as [Hd|Hd]; [eauto|].
    destruct (Data server !! d) as [data|] eqn:Hdata; [|rewrite Hmissing; eauto].
    destruct Hfail as [Hfail|[Hfail|Hfail]]; [contradiction|discriminate|].
    rewrite Hrange; eauto.
Qed.

(** Witness of X2. *)
Lemma GetTemperature_error_iff_witness :
  GetTemperature store_d1 "d7" 20 10
  = Some (ResponseBody_zero, Some (errors_New "no data for this device ID")).
Proof.
  destruct (GetTemperature_error_iff store_d1 "d7" 20 10) as (_ & Hmissing & _).
  apply Hmissing; [discriminate|reflexivity].
Defined.

(** X3: on a device whose samples are sorted, every answer without an
    error holds exactly the stored samples whose timestamp lies in
    [startTime, endTime], in stored order; this covers the answer with
    no device identifier for a range outside the data, which lost no
    sample. *)
Theorem GetTemperature_exact server d data startTime endTime response :
  Data server !! d = Some data ->
  sorted_samples (DataPoints data) ->
  GetTemperature server d startTime endTime = Some (response, None) ->
  DataPoints (Embedded response)
  = List.filter (in_range startTime endTime) (DataPoints data).
Proof.
  intros Hdata Hsorted Hres. apply sorted_samples_by in Hsorted.
  destruct (GetTemperature_nil_inv server d startTime endTime response Hres)
    as (Hd & _ & Hrange).
  destruct (DataPoints data) as [|p0 rest] eqn:Hpoints.
  { unfold GetTemperature in Hres. apply String.eqb_neq in Hd.
    rewrite Hd, Hdata, Hpoints in Hres. unfold Before in Hres.
    destruct (Z.ltb_spec endTime startTime); [lia|].
    simpl in Hres. injection Hres as <-. reflexivity. }
  assert (Hne : DataPoints data <> []) by (rewrite Hpoints; discriminate).
  rewrite <- Hpoints in *. clear Hpoints p0 rest.
  destruct (proj2 (head_is_Some (DataPoints data)) Hne) as [first Hfirst].
  destruct (proj2 (last_is_Some (DataPoints data)) Hne) as [lst Hlast].
  rewrite (GetTemperature_found server d data startTime endTime first lst) in Hres; auto.
  destruct ((Timestamp lst <? startTime) || (endTime <? Timestamp first)) eqn:Hout.
  - injection Hres as <-. simpl. symmetry. apply filter_none. intros p Hp.
    pose proof (sorted_between _ first lst p Hsorted Hfirst Hlast Hp).
    unfold in_range. lia.
  - rewrite (slice_of_searches (DataPoints data) startTime endTime Hsorted Hrange) in Hres.
    injection Hres as <-. reflexivity.
Qed.

(** Witness of X3. *)
Lemma GetTemperature_exact_witness :
  DataPoints (Embedded (mkResponseBody (mkDeviceData "sensor" [mkDataPoint 10 201]) "d1"))
  = List.filter (in_range 5 15)
      [mkDataPoint 0 200; mkDataPoint 10 201; mkDataPoint 20 202].
Proof.
  apply (GetTemperature_exact store_d1 "d1"
    (mkDeviceData "sensor" [mkDataPoint 0 200; mkDataPoint 10 201; mkDataPoint 20 202])
    5 15); [reflexivity| |reflexivity].
  repeat constructor; simpl; lia.
Defined.

(** X4: on a device with sorted samples, a range that starts no later
    than the first sample and ends no earlier than the last returns
    every stored sample, in stored order, with the device identifier and
    the stored type. *)
Theorem GetTemperature_superset server d data startTime endTime first lst :
  d <> "" ->
  Data server !! d = Some data ->
  sorted_samples (DataPoints data) ->
  head (DataPoints data) = Some first ->
  last (DataPoints data) = Some lst ->
  startTime <= Timestamp first ->
  Timestamp lst <= endTime ->
  GetTemperature server d startTime endTime
  = Some (mkResponseBody (mkDeviceData (DeviceType data) (DataPoints data)) d, None).
Proof.
  intros Hd Hdata Hsorted Hfirst Hlast Hlo Hhi. apply sorted_samples_by in Hsorted.
  assert (Hin : forall p, In p (DataPoints data) ->
                  Timestamp first <= Timestamp p <= Timestamp lst)
    by (intros p; now apply sorted_between).
  assert (Hf : In first (DataPoints data))
    by (apply list_elem_of_In; now apply head_Some_elem_of).
  pose proof (Hin first Hf).
  rewrite (GetTemperature_sorted server d data startTime endTime first lst); auto; try lia.
  rewrite filter_all; [reflexivity|].
  intros p Hp. specialize (Hin p Hp). unfold in_range. lia.
Qed.

(** Witness of X4. *)
Lemma GetTemperature_superset_witness :
  GetTemperature store_d1 "d1" (-3600) 3620
  = Some (mkResponseBody (mkDeviceData "sensor"
            [mkDataPoint 0 200; mkDataPoint 10 201; mkDataPoint 20 202]) "d1", None).
Proof.
  apply (GetTemperature_superset store_d1 "d1"
    (mkDeviceData "sensor" [mkDataPoint 0 200; mkDataPoint 10 201; mkDataPoint 20 202])
    (-3600) 3620 (mkDataPoint 0 200) (mkDataPoint 20 202));
    try reflexivity; try discriminate.
  repeat constructor; simpl; lia.
Defined.

(** X5: on a device whose samples have strictly increasing timestamps,
    a range that starts no later than the first sample and ends at the
    timestamp of the sample of index [k] returns the first [k + 1]
    samples. *)
Theorem GetTemperature_prefix server d data startTime first k p :
  d <> "" ->
  Data server !! d = Some data ->
  strictly_increasing (DataPoints data) ->
  head (DataPoints data) = Some first ->
  DataPoints data !! k = Some p ->
  startTime <= Timestamp first ->
  GetTemperature server d startTime (Timestamp p)
  = Some (mkResponseBody
            (mkDeviceData (DeviceType data) (take (S k) (DataPoints data))) d, None).
Proof.
  intros Hd Hdata Hstrict Hfirst Hk Hlo.
  pose proof (proj1 (sorted_samples_by _) (strictly_increasing_sorted _ Hstrict)) as Hsorted.
  assert (Hne : DataPoints data <> []) by (intros Heq; now rewrite Heq in Hk).
  destruct (proj2 (last_is_Some (DataPoints data)) Hne) as [lst Hlast].
  assert (Hp : In p (DataPoints data))
    by (apply list_elem_of_In; eapply list_elem_of_lookup_2; exact Hk).
  pose proof (sorted_between _ first lst p Hsorted Hfirst Hlast Hp) as Hbetween.
  rewrite (GetTemperature_sorted server d data startTime (Timestamp p) first lst);
    auto; try lia.
  do 4 f_equal. apply filter_is_take. intros i x Hx.
  assert (Hxin : In x (DataPoints data))
    by (apply list_elem_of_In; eapply list_elem_of_lookup_2; exact Hx).
  pose proof (sorted_between _ first lst x Hsorted Hfirst Hlast Hxin).
  unfold in_range. destruct (Nat.ltb_spec i (S k)) as [Hik|Hik].
  - assert (Timestamp x <= Timestamp p); [|lia].
    destruct (Nat.eq_dec i k) as [->|Hne'].
    + rewrite Hk in Hx. injection Hx as <-. lia.
    + pose proof (strictly_increasing_lookup _ i k x p Hstrict ltac:(lia) Hx Hk). lia.
  - pose proof (strictly_increasing_lookup _ k i p x Hstrict ltac:(lia) Hk Hx). lia.
Qed.

(** Witness of X5. *)
Lemma GetTemperature_prefix_witness :
  GetTemperature store_d1 "d1" (-3600) (Timestamp (mkDataPoint 10 201))
  = Some (mkResponseBody (mkDeviceData "sensor"
            (take 2 [mkDataPoint 0 200; mkDataPoint 10 201; mkDataPoint 20 202])) "d1", None).
Proof.
  apply (GetTemperature_prefix store_d1 "d1"
    (mkDeviceData "sensor" [mkDataPoint 0 200; mkDataPoint 10 201; mkDataPoint 20 202])
    (-3600) (mkDataPoint 0 200) 1 (mkDataPoint 10 201));
    try reflexivity; try discriminate.
  repeat constructor; simpl; lia.
Defined.

(** X6: on a device whose samples have strictly increasing timestamps,
    a range that starts at the timestamp of the sample of index [k] and
    ends no earlier than the last sample returns the samples from index
    [k] on; for the last sample that is the one sample. *)
Theorem GetTemperature_suffix server d data endTime lst k p :
  d <> "" ->
  Data server !! d = Some data ->
  strictly_increasing (DataPoints data) ->
  last (DataPoints data) = Some lst ->
  DataPoints data !! k = Some p ->
  Timestamp lst <= endTime ->
  GetTemperature server d (Timestamp p) endTime
  = Some (mkResponseBody
            (mkDeviceData (DeviceType data) (drop k (DataPoints data))) d, None).
Proof.
  intros Hd Hdata Hstrict Hlast Hk Hhi.
  pose proof (proj1 (sorted_samples_by _) (strictly_increasing_sorted _ Hstrict)) as Hsorted.
  assert (Hne : DataPoints data <> []) by (intros Heq; now rewrite Heq in Hk).
  destruct (proj2 (head_is_Some (DataPoints data)) Hne) as [first Hfirst].
  assert (Hp : In p (DataPoints data))
    by (apply list_elem_of_In; eapply list_elem_of_lookup_2; exact Hk).
  pose proof (sorted_between _ first lst p Hsorted Hfirst Hlast Hp) as Hbetween.
  rewrite (GetTemperature_sorted server d data (Timestamp p) endTime first lst);
    auto; try lia.
  do 4 f_equal. apply filter_is_drop. intros i x Hx.
  assert (Hxin : In x (DataPoints data))
    by (apply list_elem_of_In; eapply list_elem_of_lookup_2; exact Hx).
  pose proof (sorted_between _ first lst x Hsorted Hfirst Hlast Hxin).
  unfold in_range. destruct (Nat.leb_spec k i) as [Hki|Hki].
  - assert (Timestamp p <= Timestamp x); [|lia].
    destruct (Nat.eq_dec i k) as [->|Hne'].
    + rewrite Hk in Hx. injection Hx as <-. lia.
    + pose proof (strictly_increasing_lookup _ k i p x Hstrict ltac:(lia) Hk Hx). lia.
  - pose proof (strictly_increasing_lookup _ i k x p Hstrict ltac:(lia) Hx Hk). lia.
Qed.

(** Witness of X6: the last sample and an hour more. *)
Lemma GetTemperature_suffix_witness :
  GetTemperature store_d1 "d1" (Timestamp (mkDataPoint 20 202)) 3620
  = Some (mkResponseBody (mkDeviceData "sensor"
            (drop 2 [mkDataPoint 0 200; mkDataPoint 10 201; mkDataPoint 20 202])) "d1", None).
Proof.
  apply (GetTemperature_suffix store_d1 "d1"
    (mkDeviceData "sensor" [mkDataPoint 0 200; mkDataPoint 10 201; mkDataPoint 20 202])
    3620 (mkDataPoint 20 202) 2 (mkDataPoint 20 202));
    try reflexivity; try discriminate.
  repeat constructor; simpl; lia.
Defined.

(** ** Further properties of [PostTemperature] and of histories *)

Lemma strictly_increasing_unique (l1 l2 : list DataPoint) :
  strictly_increasing l1 -> strictly_increasing l2 -> Permutation l1 l2 -> l1 = l2.
Proof.
  intros H1 H2 Hperm.
  apply (StronglySorted_unique_strong (fun a b => Timestamp a < Timestamp b)); auto.
  intros x1 x2 _ _ Hlt Hgt. lia.
Qed.

Section MoreStoreFacts.
Context `{SliceSorter}.

(** X7: a sample can be read back at once: after a [PostTemperature]
    that returned [nil], from any store, [GetTemperature] for the same
    device over the single instant of the sample returns, with no error,
    the device identifier, the device type just given, and samples that
    all carry that timestamp, the new sample among them. *)
Theorem PostTemperature_then_GetTemperature server d ty t v :
  snd (PostTemperature server d ty t v) = None ->
  exists points,
    GetTemperature (fst (PostTemperature server d ty t v)) d t t
    = Some (mkResponseBody (mkDeviceData ty points) d, None)
    /\ In (mkDataPoint t v) points
    /\ Forall (fun p => Timestamp p = t) points.
Proof.
  intros Hok. pose proof (PostTemperature_entry server d ty t v Hok) as Hentry.
  apply PostTemperature_nil_iff in Hok as [Hd _].
  set (points := sort_Slice before_ts (stored server d ++ [mkDataPoint t v])) in *.
  assert (Hsorted : sorted_by before_ts points)
    by apply sort_Slice_sorted, before_ts_StrictWeak.
  assert (Hnew : In (mkDataPoint t v) points).
  { apply (Permutation_in _ (sort_Slice_perm _ before_ts _)).
    apply in_or_app. right. now left. }
  assert (Hne : points <> []) by (intros Heq; now rewrite Heq in Hnew).
  destruct (proj2 (head_is_Some points) Hne) as [first Hfirst].
  destruct (proj2 (last_is_Some points) Hne) as [lst Hlast].
  pose proof (sorted_between _ first lst _ Hsorted Hfirst Hlast Hnew) as Hbetween.
  simpl in Hbetween.
  exists (List.filter (in_range t t) points). split; [|split].
  - rewrite (GetTemperature_sorted _ d (mkDeviceData ty points) t t first lst);
      auto; simpl; lia.
  - apply filter_In. split; [exact Hnew|]. unfold in_range. simpl. lia.
  - apply Forall_forall. intros p Hp. apply list_elem_of_In, filter_In in Hp as [_ Hp].
    unfold in_range in Hp. lia.
Qed.

(** X8: a [PostTemperature] for one device, accepted or not, changes no
    answer of [GetTemperature] for another device. *)
Theorem PostTemperature_other_device server d d' ty t v startTime endTime :
  d <> d' ->
  GetTemperature (fst (PostTemperature server d' ty t v)) d startTime endTime
  = GetTemperature server d startTime endTime.
Proof.
  intros Hne. apply GetTemperature_ext. now apply PostTemperature_other.
Qed.

(** X9: two [PostTemperature] calls for different devices leave the
    same store in either order. *)
Theorem PostTemperature_commute server d1 ty1 t1 v1 d2 ty2 t2 v2 :
  d1 <> d2 ->
  fst (PostTemperature (fst (PostTemperature server d1 ty1 t1 v1)) d2 ty2 t2 v2)
  = fst (PostTemperature (fst (PostTemperature server d2 ty2 t2 v2)) d1 ty1 t1 v1).
Proof.
  intros Hne.
  assert (Hbad : forall s id ty t v, id = "" \/ ty = "" ->
            fst (PostTemperature s id ty t v) = s)
    by (intros; now apply PostTemperature_rejects).
  destruct (String.eqb_spec d1 "") as [Hd1|Hd1];
    [now rewrite !(Hbad _ d1) by tauto|].
  destruct (String.eqb_spec ty1 "") as [Hty1|Hty1];
    [now rewrite !(Hbad _ d1) by tauto|].
  destruct (String.eqb_spec d2 "") as [Hd2|Hd2];
    [now rewrite !(Hbad _ d2) by tauto|].
  destruct (String.eqb_spec ty2 "") as [Hty2|Hty2];
    [now rewrite !(Hbad _ d2) by tauto|].
  rewrite !PostTemperature_accepts by assumption. simpl.
  unfold stored. simpl. rewrite !lookup_insert_ne by congruence.
  f_equal. apply insert_insert_ne. congruence.
Qed.

(** What a history adds to the store it started from. *)
Lemma Trace_stored s0 s h d :
  Trace s0 s h ->
  Permutation (stored s d) (stored s0 d ++ samples_of d h)
  /\ (is_Some (Data s0 !! d) -> is_Some (Data s !! d)).
Proof.
  induction 1 as [|s h id ty t v Htr [IHp IHk]|s h id a b Htr IH].
  - simpl. rewrite app_nil_r. auto.
  - destruct (Posted_cases d s h id ty t v) as [(-> & Hok & Hs & _)|(Hdata & Hs & _)].
    + rewrite Hs. unfold stored at 1.
      rewrite (PostTemperature_entry s d ty t v Hok). simpl. split; [|eauto].
      rewrite <- sort_Slice_perm, IHp. now rewrite app_assoc.
    + rewrite Hs. unfold stored at 1. rewrite Hdata. auto.
  - exact IH.
Qed.

(** X10: nothing is ever dropped: after any sequence of calls, from any
    store, the samples stored for a device are those it started with
    and those of every [PostTemperature] for it that returned [nil], no
    more and no fewer (so their number is not bounded by
    [MaxDataPoints]), and every device that was a key still is. *)
Theorem Trace_never_drops s0 s h d :
  Trace s0 s h ->
  Permutation (stored s d) (stored s0 d ++ samples_of d h)
  /\ length (stored s d) = (length (stored s0 d) + length (samples_of d h))%nat
  /\ (d ∈ dom (Data s0) -> d ∈ dom (Data s)).
Proof.
  intros Htr. destruct (Trace_stored s0 s h d Htr) as [Hperm Hkey].
  split; [exact Hperm|]. split.
  - now rewrite (Permutation_length Hperm), length_app.
  - rewrite !elem_of_dom. exact Hkey.
Qed.

(** X11: after a sequence of calls that starts with [Init], no key of
    the store is the empty string and no stored device type is empty. *)
Theorem Trace_well_formed x s h d data :
  Trace (Init x) s h ->
  Data s !! d = Some data ->
  d <> "" /\ DeviceType data <> "".
Proof.
  intros Htr. revert d data.
  induction Htr as [|s h id ty t v Htr IH|s h id a b Htr IH]; intros d data Hdata.
  - discriminate.
  - destruct (String.eqb_spec id "") as [Hid|Hid].
    { rewrite (proj1 (PostTemperature_rejects s id ty t v (or_introl Hid))) in Hdata.
      eauto. }
    destruct (String.eqb_spec ty "") as [Hty|Hty].
    { rewrite (proj1 (PostTemperature_rejects s id ty t v (or_intror Hty))) in Hdata.
      eauto. }
    rewrite PostTemperature_accepts in Hdata by assumption. simpl in Hdata.
    destruct (String.eqb_spec id d) as [->|Hne].
    + rewrite lookup_insert_eq in Hdata. injection Hdata as <-. auto.
    + rewrite lookup_insert_ne in Hdata by assumption. eauto.
  - eauto.
Qed.

(** X13: when the samples recorded for a device since [Init] were
    recorded in strictly increasing order of timestamp, the store holds
    them exactly as recorded, and [GetTemperature] from the first
    timestamp to the last returns that very list. *)
Theorem ascending_posts_stored_as_posted x s h d first lst :
  Trace (Init x) s h ->
  strictly_increasing (samples_of d h) ->
  head (samples_of d h) = Some first ->
  last (samples_of d h) = Some lst ->
  stored s d = samples_of d h
  /\ exists ty,
       last_type d h = Some ty /\
       GetTemperature s d (Timestamp first) (Timestamp lst)
       = Some (mkResponseBody (mkDeviceData ty (samples_of d h)) d, None).
Proof.
  intros Htr Hstrict Hfirst Hlast.
  assert (Hrec : samples_of d h <> []) by (intros Heq; now rewrite Heq in Hfirst).
  pose proof (Trace_entry x s h d Htr) as Hentry.
  destruct (Trace_sorted _ s h d Htr Hrec) as (data & Hdata & Hsorted).
  unfold entry_agrees in Hentry. rewrite Hdata in Hentry.
  destruct Hentry as (Hd & Hty & Hperm & _).
  assert (Hnd : List.NoDup (map Timestamp (samples_of d h))).
  { clear -Hstrict. induction Hstrict as [|p l Hl IH Hp]; simpl; constructor; auto.
    intros Hin. apply in_map_iff in Hin as (q & Hq & Hin).
    rewrite Forall_forall in Hp. apply list_elem_of_In in Hin.
    specialize (Hp q Hin). simpl in Hp. lia. }
  assert (Heq : DataPoints data = samples_of d h).
  { apply strictly_increasing_unique; auto.
    apply sorted_distinct_strict; [now apply sorted_samples_by|].
    eapply Permutation_NoDup; [|exact Hnd].
    apply Permutation_map. now symmetry. }
  split; [unfold stored; now rewrite Hdata|].
  exists (DeviceType data). split; [exact Hty|].
  rewrite <- Heq in Hfirst, Hlast |- *.
  assert (Hin : forall p, In p (DataPoints data) ->
                  Timestamp first <= Timestamp p <= Timestamp lst)
    by (intros p; now apply sorted_between).
  assert (Hf : In first (DataPoints data))
    by (apply list_elem_of_In; now apply head_Some_elem_of).
  pose proof (Hin first Hf).
  rewrite (GetTemperature_sorted s d data (Timestamp first) (Timestamp lst) first lst);
    auto; try lia.
  rewrite filter_all; [now destruct data|].
  intros p Hp. specialize (Hin p Hp). unfold in_range. lia.
Qed.

End MoreStoreFacts.

Lemma stored_sorted `{SliceSorter} x s h d :
  Trace (Init x) s h -> sorted_by before_ts (stored s d).
Proof.
  intros Htr. destruct (samples_of d h) as [|p l] eqn:Hs.
  - destruct (Trace_stored _ s h d Htr) as [Hperm _].
    rewrite Hs in Hperm. simpl in Hperm. unfold stored at 2 in Hperm.
    simpl in Hperm. rewrite lookup_empty in Hperm. simpl in Hperm.
    apply Permutation_sym, Permutation_nil in Hperm. rewrite Hperm. constructor.
  - destruct (Trace_sorted _ s h d Htr) as (data & Hdata & Hsorted);
      [rewrite Hs; discriminate|].
    unfold stored. now rewrite Hdata.
Qed.

(** X12: with distinct timestamps the order of recording does not
    matter, nor does the sorting algorithm: two sequences of calls that
    start with [Init] and record the same samples for a device, in any
    two orders and under any two implementations of [sort.Slice], leave
    the same sample sequence for it. *)
Theorem recording_order_irrelevant (S1 S2 : SliceSorter) x1 x2 s1 s2 h1 h2 d :
  @Trace S1 (Init x1) s1 h1 ->
  @Trace S2 (Init x2) s2 h2 ->
  Permutation (samples_of d h1) (samples_of d h2) ->
  List.NoDup (map Timestamp (samples_of d h1)) ->
  stored s1 d = stored s2 d.
Proof.
  intros Htr1 Htr2 Hperm Hnd.
  destruct (@Trace_stored S1 _ s1 h1 d Htr1) as [Hp1 _].
  destruct (@Trace_stored S2 _ s2 h2 d Htr2) as [Hp2 _].
  assert (Hempty : forall x, stored (Init x) d = []).
  { intros x. unfold stored. simpl. now rewrite lookup_empty. }
  rewrite Hempty in Hp1, Hp2. simpl in Hp1, Hp2.
  apply strictly_increasing_unique.
  - apply sorted_distinct_strict.
    + apply sorted_samples_by. exact (@stored_sorted S1 x1 s1 h1 d Htr1).
    + eapply Permutation_NoDup; [|exact Hnd]. apply Permutation_map. now symmetry.
  - apply sorted_distinct_strict.
    + apply sorted_samples_by. exact (@stored_sorted S2 x2 s2 h2 d Htr2).
    + eapply Permutation_NoDup; [|exact Hnd]. apply Permutation_map.
      now rewrite Hperm, Hp2.
  - now rewrite Hp1, Hperm, Hp2.
Qed.

(** *** The further properties on the small histories *)

Lemma Trace_shuffled : Trace (Init (mkTemperatureApi ∅)) store_shuffled history_shuffled.
Proof. apply replay_Trace. constructor. Defined.

(** Witness of X7. *)
Lemma PostTemperature_then_GetTemperature_witness :
  exists points,
    GetTemperature (fst (PostTemperature store_d1 "d1" "gauge" 10 999)) "d1" 10 10
    = Some (mkResponseBody (mkDeviceData "gauge" points) "d1", None)
    /\ In (mkDataPoint 10 999) points
    /\ Forall (fun p => Timestamp p = 10) points.
Proof.
  apply PostTemperature_then_GetTemperature. reflexivity.
Defined.

(** Witness of X8. *)
Lemma PostTemperature_other_device_witness :
  GetTemperature (fst (PostTemperature store_d1 "d2" "probe" 7 70)) "d1" 0 20
  = GetTemperature store_d1 "d1" 0 20.
Proof.
  apply PostTemperature_other_device. discriminate.
Defined.

(** Witness of X9. *)
Lemma PostTemperature_commute_witness :
  fst (PostTemperature (fst (PostTemperature store_d1 "d1" "sensor" 5 50)) "d2" "probe" 7 70)
  = fst (PostTemperature (fst (PostTemperature store_d1 "d2" "probe" 7 70)) "d1" "sensor" 5 50).
Proof.
  apply PostTemperature_commute. discriminate.
Defined.

(** Witness of X10. *)
Lemma Trace_never_drops_witness :
  Permutation (stored store_log "d1")
    (stored (Init (mkTemperatureApi ∅)) "d1" ++ samples_of "d1" history_log)
  /\ length (stored store_log "d1")
     = (length (stored (Init (mkTemperatureApi ∅)) "d1")
        + length (samples_of "d1" history_log))%nat
  /\ ("d1" ∈ dom (Data (Init (mkTemperatureApi ∅))) -> "d1" ∈ dom (Data store_log)).
Proof.
  exact (Trace_never_drops _ _ _ "d1" Trace_log).
Defined.

(** Witness of X11. *)
Lemma Trace_well_formed_witness :
  "d1" <> "" /\ DeviceType (mkDeviceData "thermo"
    [mkDataPoint 0 200; mkDataPoint 10 201; mkDataPoint 20 202]) <> "".
Proof.
  apply (Trace_well_formed _ _ _ "d1" _ Trace_log). vm_compute. reflexivity.
Defined.

(** Witness of X12: the samples of ["d1"] recorded in two orders. *)
Lemma recording_order_irrelevant_witness :
  stored store_log "d1" = stored store_shuffled "d1".
Proof.
  apply (recording_order_irrelevant _ _ _ _ _ _ _ _ "d1" Trace_log Trace_shuffled).
  - change (Permutation
              (mkDataPoint 20 202 :: [mkDataPoint 0 200; mkDataPoint 10 201])
              ([mkDataPoint 0 200; mkDataPoint 10 201] ++ [mkDataPoint 20 202])).
    apply Permutation_cons_append.
  - change (List.NoDup [20; 0; 10]).
    repeat constructor; simpl; intuition discriminate.
Defined.

(** Witness of X13. *)
Lemma ascending_posts_stored_as_posted_witness :
  stored store_shuffled "d1" = samples_of "d1" history_shuffled
  /\ exists ty,
       last_type "d1" history_shuffled = Some ty /\
       GetTemperature store_shuffled "d1"
         (Timestamp (mkDataPoint 0 200)) (Timestamp (mkDataPoint 20 202))
       = Some (mkResponseBody (mkDeviceData ty (samples_of "d1" history_shuffled)) "d1", None).
Proof.
  apply (ascending_posts_stored_as_posted _ _ _ "d1" _ _ Trace_shuffled);
    [|reflexivity|reflexivity].
  change (strictly_increasing [mkDataPoint 0 200; mkDataPoint 10 201; mkDataPoint 20 202]).
  repeat constructor; simpl; lia.
Defined.

(** X14: the error of [PostTemperature] by its message: an empty device
    identifier gives "device ID cannot be empty", also when the device
    type is empty too; a non-empty identifier with an empty type gives
    "device type cannot be empty"; the store plays no part. *)
Theorem PostTemperature_error_message `{SliceSorter} server id ty t v :
  (id = "" ->
     snd (PostTemperature server id ty t v)
     = Some (errors_New "device ID cannot be empty"))
  /\ (id <> "" -> ty = "" ->
     snd (PostTemperature server id ty t v)
     = Some (errors_New "device type cannot be empty"))
  /\ (forall e, snd (PostTemperature server id ty t v) = Some e ->
        (Error e = "device ID cannot be empty" /\ id = "")
        \/ (Error e = "device type cannot be empty" /\ id <> "" /\ ty = "")).
Proof.
  unfold PostTemperature. split; [|split].
  - intros ->. reflexivity.
  - intros Hid ->. apply String.eqb_neq in Hid. now rewrite Hid.
  - intros e. destruct (String.eqb_spec id "") as [Hid|Hid].
    + simpl. intros [= <-]. left. auto.
    + destruct (String.eqb_spec ty "") as [Hty|Hty].
      * simpl. intros [= <-]. right. auto.
      * discriminate.
Qed.

(** Witness of X14: both arguments empty. *)
Lemma PostTemperature_error_message_witness :
  snd (PostTemperature store_d1 "" "" 1 1)
  = Some (errors_New "device ID cannot be empty").
Proof.
  destruct (PostTemperature_error_message store_d1 "" "" 1 1) as (Hid & _).
  apply Hid. reflexivity.
Defined.

(** X15: [GetTemperature] never makes up a sample: whatever the store
    holds, sorted or not, the samples of an answer without an error are
    stored samples of the device asked about, in their stored order. *)
Theorem GetTemperature_only_stored server d startTime endTime response :
  GetTemperature server d startTime endTime = Some (response, None) ->
  sublist (DataPoints (Embedded response)) (stored server d).
Proof.
  unfold GetTemperature, stored. intros Hres.
  destruct (String.eqb d ""); [discriminate|].
  destruct (Data server !! d) as [data|]; [|discriminate]. simpl.
  destruct (Before endTime startTime); [discriminate|].
  destruct (length (DataPoints data) =? 0)%nat.
  { injection Hres as <-. simpl. apply sublist_nil_l. }
  cbv zeta in Hres.
  match type of Hres with context [if ?c then _ else _] => destruct c end.
  { injection Hres as <-. simpl. apply sublist_nil_l. }
  unfold slice in Hres.
  match type of Hres with context [if ?c then _ else _] => destruct c end;
    [|discriminate].
  injection Hres as <-. simpl.
  etransitivity; [apply sublist_take|apply sublist_drop].
Qed.

(** Witness of X15, on samples that are out of order. *)
Lemma GetTemperature_only_stored_witness :
  sublist
    (DataPoints (Embedded (mkResponseBody
       (mkDeviceData "sensor" [mkDataPoint 8 80; mkDataPoint 1 10]) "d1")))
    (stored store_unsorted "d1").
Proof.
  apply (GetTemperature_only_stored store_unsorted "d1" 0 8). reflexivity.
Defined.
